(** * Twitter_Analysis: the sentiment page of [app.py]

    A shallow embedding of [app.py]: the text clean-up at the head of
    [predict_sentiment], the label it returns, the two batch loops of [main]
    with their statistics block, and the "Fetch Tweets" branch with its
    validation and its [try]/[except].

    Python values are modelled as follows.
    - A [str] is the list of its Unicode code points.
    - The pickled vectorizer and classifier, the stopword list and the
      scraper are not part of the repository; they are the variables of
      [Section App].
    - Calls to Streamlit and to the three collaborators are recorded, in
      program order, in a trace of events; exceptions are a result value. *)

From Stdlib Require Import PrimFloat.
From stdpp Require Import base numbers list strings gmap.

Local Open Scope N_scope.

(** ** Python strings *)

(** A code point. *)
Abbreviation char := N (only parsing).

(** A Python [str]. *)
Abbreviation str := (list N) (only parsing).

(** A source literal; every literal used below is ASCII. *)
Definition py (s : string) : str :=
  List.map Ascii.N_of_ascii (String.list_ascii_of_string s).

(** ['A' <= c <= 'Z'] *)
Definition is_upper (c : char) : bool := (65 <=? c) && (c <=? 90).

(** ['a' <= c <= 'z'] *)
Definition is_lower (c : char) : bool := (97 <=? c) && (c <=? 122).

(** The character class [[a-zA-Z]] of the pattern on line 27. *)
Definition is_ascii_letter (c : char) : bool := is_lower c || is_upper c.

Definition space : char := 32.

(** [re.sub('[^a-zA-Z]', ' ', text)]: every code point outside the two
    ASCII letter ranges becomes one space; the length is unchanged. *)
Definition re_sub_non_letters (text : str) : str :=
  List.map (fun c => if is_ascii_letter c then c else space) text.

(** [str.lower] on one code point of the ASCII letter ranges or a space.
    Line 28 applies [lower] to the output of line 27 only, which holds
    nothing else (lemma [re_sub_non_letters_chars]); on other code points
    Python's case mapping is richer and is not needed here. *)
Definition lower_char (c : char) : char := if is_upper c then c + 32 else c.

Definition lower (text : str) : str := List.map lower_char text.

(** [str.isspace] for one code point: the white space [str.split()] with no
    argument splits on. *)
Definition isspace (c : char) : bool :=
  ((9 <=? c) && (c <=? 13)) || ((28 <=? c) && (c <=? 32))
  || (c =? 133) || (c =? 160) || (c =? 5760)
  || ((8192 <=? c) && (c <=? 8202))
  || (c =? 8232) || (c =? 8233) || (c =? 8239) || (c =? 8287) || (c =? 12288).

(** A finished word is kept only when it is not empty: [split()] never
    yields an empty token. *)
Definition push_word (w : str) (ws : list str) : list str :=
  match w with
  | [] => ws
  | _ :: _ => w :: ws
  end.

(** One right-to-left pass of [str.split()]: the characters of the word that
    is still open at the head of the text, and the words after it. *)
Fixpoint split_scan (text : str) : str * list str :=
  match text with
  | [] => ([], [])
  | c :: rest =>
      let '(w, ws) := split_scan rest in
      if isspace c then ([], push_word w ws) else (c :: w, ws)
  end.

(** [text.split()] *)
Definition split (text : str) : list str :=
  let '(w, ws) := split_scan text in push_word w ws.

(** [sep.join(words)] *)
Fixpoint join (sep : str) (words : list str) : str :=
  match words with
  | [] => []
  | [w] => w
  | w :: ws => w ++ sep ++ join sep ws
  end.

(** [word not in stop_words], the test of the comprehension on line 30;
    [stop_words] is the Python list returned by [stopwords.words]. *)
Definition remove_stop_words (stop_words words : list str) : list str :=
  filter (fun word => word ∉ stop_words) words.

(** Lines 27 to 31 of [predict_sentiment] ("Preprocess text"), the
    normalizer of the specification. *)
Definition preprocess (text : str) (stop_words : list str) : str :=
  let text := re_sub_non_letters text in
  let text := lower text in
  let text := split text in
  let text := remove_stop_words stop_words text in
  join [space] text.

(** [str.lstrip(chars)]: drop the leading code points that occur in
    [chars]. *)
Fixpoint lstrip (chars : str) (text : str) : str :=
  match text with
  | [] => []
  | c :: rest => if bool_decide (c ∈ chars) then lstrip chars rest else text
  end.

(** [seq[:n]] for a Python integer [n]: a negative bound counts from the
    end. *)
Definition slice_to {A} (seq : list A) (n : Z) : list A :=
  if (0 <=? n)%Z then take (Z.to_nat n) seq
  else take (length seq - Z.to_nat (- n)) seq.

(** [seq.count(x)] *)
Definition count (x : str) (seq : list str) : Z :=
  Z.of_nat (length (filter (fun y => y = x) seq)).

(** [len(seq)] *)
Definition len {A} (seq : list A) : Z := Z.of_nat (length seq).

(** ** Exceptions and results *)

(** The exceptions of a run. All of them are subclasses of [Exception];
    what is raised outside that class ([KeyboardInterrupt], [SystemExit])
    ends the script run from outside and is not modelled. *)
Inductive exn : Type :=
| ZeroDivisionError
| KeyError (key : string)
| ValueError
| TypeError
| ScraperError (description : str).

Inductive res (A : Type) : Type :=
| Ok (a : A)
| Raise (e : exn).
Arguments Ok {A} a.
Arguments Raise {A} e.

(** A Python [float] is a binary64 number; arithmetic on it rounds to
    nearest, ties to even. *)
Abbreviation float := PrimFloat.float (only parsing).

(** [float(n)] for a positive integer, bit by bit; every step is exact
    below 2^53. *)
Fixpoint float_of_positive (p : positive) : float :=
  match p with
  | xH => 1%float
  | xO q => (2 * float_of_positive q)%float
  | xI q => (2 * float_of_positive q + 1)%float
  end.

(** [float(n)] *)
Definition float_of_Z (n : Z) : float :=
  match n with
  | Z0 => 0%float
  | Zpos p => float_of_positive p
  | Zneg p => (- float_of_positive p)%float
  end.

(** [a / b] on Python integers: [ZeroDivisionError] for a zero divisor,
    otherwise the binary64 quotient of the two integers as floats, which is
    what CPython computes when both fit in 53 bits. The operands here are
    counts and lengths of lists held in memory, far below that bound. *)
Definition truediv (a b : Z) : res float :=
  if decide (b = 0%Z) then Raise ZeroDivisionError
  else Ok (float_of_Z a / float_of_Z b)%float.

(** [array == z] on a one-dimensional integer array, element by element. *)
Definition ndarray_eq (array : list Z) (z : Z) : list bool :=
  List.map (fun x => bool_decide (x = z)) array.

(** The truth value of an array in a condition: that of its only element.
    An array with several elements raises [ValueError], and so does the
    empty one in current NumPy. *)
Definition ndarray_bool (array : list bool) : res bool :=
  match array with
  | [b] => Ok b
  | _ => Raise ValueError
  end.

(** The two labels, lines 37, 121 and 122. *)
Definition Negative : str := Eval cbv in py "Negative".
Definition Positive : str := Eval cbv in py "Positive".

(** ** What the scraper hands back *)

(** One tweet: a [dict]; only its ['text'] entry is read. *)
Abbreviation tweet := (gmap string (list N)) (only parsing).

(** The value of [scraper.get_tweets(...)]: [None] or a [dict] whose
    ['tweets'] entry, when present, is a list of tweets. *)
Abbreviation tweets_dict := (option (gmap string (list (gmap string (list N)))))
  (only parsing).

Inductive fetch_outcome : Type :=
| FetchRaises (e : exn)
| FetchReturns (tweets_data : tweets_dict).

(** [d[key]] *)
Definition getitem {V} (d : gmap string V) (key : string) : res V :=
  match d !! key with
  | Some v => Ok v
  | None => Raise (KeyError key)
  end.

(** The condition of line 177,
    [tweets_data and 'tweets' in tweets_data and len(tweets_data['tweets']) > 0],
    with its short-circuit evaluation. *)
Definition has_tweets (tweets_data : tweets_dict) : bool :=
  match tweets_data with
  | None => false
  | Some d =>
      negb (bool_decide (d = ∅))
      && match d !! "tweets"%string with
         | None => false
         | Some tweets => (0 <? len tweets)%Z
         end
  end.

(** ** The event trace *)

(** The texts shown to the user; an f-string keeps its arguments. *)
Inductive message : Type :=
| MsgSentiment (sentiment : str)                 (* line 74 *)
| MsgDemoEnabled                                 (* line 81 *)
| MsgAnalyzingDemo (n : Z)                       (* line 113 *)
| MsgEnterUsername                               (* line 167 *)
| MsgFetching (num_tweets : Z) (username : str)  (* line 173 *)
| MsgFetched (n : Z) (username : str)            (* line 179 *)
| MsgNoTweets (username : str)                   (* line 229 *)
| MsgDemoTip                                     (* line 230 *)
| MsgFetchFailed (e : exn)                       (* line 233 *)
| MsgFetchFailedHelp.                            (* lines 234-241 *)

Inductive heading : Type :=
| HSummary | HDistribution | HIndividual.

(** What a metric tile shows: the total, or a count with its percentage. *)
Inductive metric_value : Type :=
| MetricTotal (total_count : Z)
| MetricShare (n : Z) (percentage : float).

(** One observable call, to Streamlit or to a collaborator. *)
Inductive event : Type :=
| StTitle
| StMarkdownIntro
| StWrite (m : message)
| StInfo (m : message)
| StError (m : message)
| StWarning (m : message)
| StSuccess (m : message)
| StSpinner (m : message)
| StSubheader (h : heading)
| StMetric (label : string) (value : metric_value)
| StBarChart (positive_count negative_count : Z)
| StCard (idx : Z) (sentiment : str) (tweet_text : str)
| GetTweets (username : str) (number : Z)
| VectorizerTransform (batch : list str)
| ModelPredict (classes : list Z).

(** A computation: it extends the trace of the run so far and either
    returns or raises. *)
Definition M (A : Type) : Type := list event -> res A * list event.

Definition ret {A} (a : A) : M A := fun tr => (Ok a, tr).

Definition bind {A B} (m : M A) (k : A -> M B) : M B :=
  fun tr =>
    match m tr with
    | (Ok a, tr') => k a tr'
    | (Raise e, tr') => (Raise e, tr')
    end.

Definition emit (e : event) : M unit := fun tr => (Ok tt, tr ++ [e]).

(** A value or an exception of a pure step. *)
Definition lift {A} (r : res A) : M A := fun tr => (r, tr).

(** [try: body except Exception as e: handler]; every [exn] above is a
    subclass of [Exception]. *)
Definition try_except {A} (body : M A) (handler : exn -> M A) : M A :=
  fun tr =>
    match body tr with
    | (Ok a, tr') => (Ok a, tr')
    | (Raise e, tr') => handler e tr'
    end.

Notation "x <- m ;; k" := (bind m (fun x => k))
  (at level 100, m at next level, right associativity).
Notation "m ;;; k" := (bind m (fun _ => k))
  (at level 100, right associativity).

(** The widgets of one script run: what the user chose, typed and
    clicked. *)
Inductive choice : Type := InputText | GetTweetsFromUser.

Record widgets : Type := {
  selected_option : choice;  (* st.selectbox, line 68 *)
  text_input : str;          (* st.text_area, line 71 *)
  analyze_clicked : bool;    (* st.button("Analyze"), line 72 *)
  use_demo : bool;           (* st.checkbox, line 78 *)
  username : str;            (* st.text_input, lines 82 and 159 *)
  num_tweets : Z;            (* st.slider, lines 83 and 162 *)
  demo_clicked : bool;       (* st.button("Analyze Demo Tweets"), line 85 *)
  fetch_clicked : bool       (* st.button("Fetch Tweets"), line 164 *)
}.

(** The twenty sample tweets of lines 87 to 108. *)
Definition demo_tweets : list str := List.map py [
  "I absolutely love this product! Best purchase I've made this year. Highly recommend it to everyone!";
  "This is terrible. Worst experience ever. I want my money back immediately.";
  "Just had an amazing day at the beach with friends. Life is beautiful!";
  "Feeling so frustrated and disappointed with the customer service. Never shopping here again.";
  "The new update is fantastic! Everything works so smoothly now. Great job developers!";
  "This app keeps crashing. So annoying and unreliable. Waste of time.";
  "What a wonderful surprise! Exceeded all my expectations. Five stars!";
  "Completely useless and overpriced. Don't waste your money on this garbage.";
  "Having such a great time at the concert! The energy is incredible!";
  "Stuck in traffic for hours. This is the worst commute of my life.";
  "Just finished reading an inspiring book. Feeling motivated and energized!";
  "The food was cold and tasteless. Very disappointing dining experience.";
  "Congratulations to the team! Outstanding performance and well-deserved victory!";
  "Another delay and no explanation. This airline is a complete disaster.";
  "Beautiful sunset today. Nature never fails to amaze me.";
  "Broken promises and poor quality. I expected so much better than this.";
  "Thank you for the wonderful gift! You always know how to make me smile.";
  "Rude staff and dirty facilities. Will never return to this place.";
  "Excited about the new opportunities ahead! Can't wait to get started!";
  "System is down again. How is this acceptable? Completely unreliable service."
]%string.

(** ** The statistics block, lines 121 to 125 and again 189 to 193 *)

Record statistics : Type := {
  positive_count : Z;
  negative_count : Z;
  total_count : Z;
  positive_percentage : float;
  negative_percentage : float
}.

(** Lines 121 to 123: the two counts and the length. *)
Definition sentiment_counts (sentiments : list str) : Z * Z * Z :=
  (count Positive sentiments, count Negative sentiments, len sentiments).

(** Lines 121 to 125. *)
Definition sentiment_statistics (sentiments : list str) : res statistics :=
  let '(positive_count, negative_count, total_count) :=
    sentiment_counts sentiments in
  match truediv positive_count total_count with
  | Raise e => Raise e
  | Ok p =>
      match truediv negative_count total_count with
      | Raise e => Raise e
      | Ok n =>
          Ok {| positive_count := positive_count;
                negative_count := negative_count;
                total_count := total_count;
                positive_percentage := (p * 100)%float;
                negative_percentage := (n * 100)%float |}
      end
  end.

(** Lines 128 to 140 and 196 to 208: the three metric tiles and the bar
    chart. *)
Definition display_summary (s : statistics) : M unit :=
  emit (StSubheader HSummary) ;;;
  emit (StMetric "Total Tweets" (MetricTotal (total_count s))) ;;;
  emit (StMetric "Positive"
          (MetricShare (positive_count s) (positive_percentage s))) ;;;
  emit (StMetric "Negative"
          (MetricShare (negative_count s) (negative_percentage s))) ;;;
  emit (StSubheader HDistribution) ;;;
  emit (StBarChart (positive_count s) (negative_count s)).

(** Lines 144 to 156: one card per pair of
    [enumerate(zip(selected_tweets, sentiments), idx)]. *)
Fixpoint demo_cards (idx : Z) (pairs : list (str * str)) : M unit :=
  match pairs with
  | [] => ret tt
  | (tweet_text, sentiment) :: rest =>
      emit (StCard idx sentiment tweet_text) ;;;
      demo_cards (idx + 1) rest
  end.

(** Lines 212 to 226: the same over fetched tweets, reading
    [tweet['text']]. *)
Fixpoint fetch_cards (idx : Z) (pairs : list (tweet * str)) : M unit :=
  match pairs with
  | [] => ret tt
  | (tweet, sentiment) :: rest =>
      tweet_text <- lift (getitem tweet "text") ;;
      emit (StCard idx sentiment tweet_text) ;;;
      fetch_cards (idx + 1) rest
  end.

(** [tweets_data['tweets']], line 178. *)
Definition tweets_of (tweets_data : tweets_dict) : res (list tweet) :=
  match tweets_data with
  | None => Raise TypeError
  | Some d => getitem d "tweets"
  end.

(** ** The coloured card, lines 45 to 53 *)

Definition newline : str := [10].
Definition double_quote : str := [34].

(** [create_card(tweet_text, sentiment)]: the f-string of lines 47 to 52
    with its three fields filled in as they are. *)
Definition create_card (tweet_text : str) (sentiment : str) : str :=
  let color :=
    if bool_decide (sentiment = Positive) then py "green" else py "red" in
  newline
  ++ py "    <div style=" ++ double_quote ++ py "background-color: " ++ color
  ++ py "; padding: 10px; border-radius: 5px; margin: 10px 0;"
  ++ double_quote ++ py ">" ++ newline
  ++ py "        <h5 style=" ++ double_quote ++ py "color: white;"
  ++ double_quote ++ py ">" ++ sentiment ++ py " Sentiment</h5>" ++ newline
  ++ py "        <p style=" ++ double_quote ++ py "color: white;"
  ++ double_quote ++ py ">" ++ tweet_text ++ py "</p>" ++ newline
  ++ py "    </div>" ++ newline
  ++ py "    ".

(** ** The program *)

Section App.

(** The unpickled [vectorizer] and [model], the stopword list and the
    scraper: the collaborators every function below is given. The
    vectorizer maps a batch of strings to a feature matrix, the model a
    feature matrix to an array of class indices. *)
Context {FeatureMatrix : Type}.
Variable vectorizer_transform : list str -> FeatureMatrix.
Variable model_predict : FeatureMatrix -> list Z.
Variable stop_words : list str.
Variable scraper_get_tweets : str -> Z -> fetch_outcome.

(** Lines 25 to 37. *)
Definition predict_sentiment (text : str) : M str :=
  let text := preprocess text stop_words in
  let text := [text] in
  emit (VectorizerTransform text) ;;;
  let text := vectorizer_transform text in
  let sentiment := model_predict text in
  emit (ModelPredict sentiment) ;;;
  is_zero <- lift (ndarray_bool (ndarray_eq sentiment 0)) ;;
  ret (if is_zero : bool then Negative else Positive).

(** The array the model returns for one text. *)
Definition classes_of (text : str) : list Z :=
  model_predict (vectorizer_transform [preprocess text stop_words]).

(** What line 37 makes of that array. *)
Definition label_of (text : str) : res str :=
  match ndarray_bool (ndarray_eq (classes_of text) 0) with
  | Ok is_zero => Ok (if is_zero then Negative else Positive)
  | Raise e => Raise e
  end.

(** The two collaborator calls behind the label of one text. *)
Definition predict_events (text : str) : list event :=
  [VectorizerTransform [preprocess text stop_words];
   ModelPredict (classes_of text)].

(** Lines 115 to 118: [sentiments] grows by one label per text. *)
Fixpoint demo_loop (selected_tweets : list str) (sentiments : list str)
  : M (list str) :=
  match selected_tweets with
  | [] => ret sentiments
  | tweet_text :: rest =>
      sentiment <- predict_sentiment tweet_text ;;
      demo_loop rest (sentiments ++ [sentiment])
  end.

(** Lines 182 to 186: the same loop over fetched tweets. *)
Fixpoint fetch_loop (tweets : list tweet) (sentiments : list str)
  : M (list str) :=
  match tweets with
  | [] => ret sentiments
  | tweet :: rest =>
      tweet_text <- lift (getitem tweet "text") ;;
      sentiment <- predict_sentiment tweet_text ;;
      fetch_loop rest (sentiments ++ [sentiment])
  end.

(** Lines 111 to 156, the body of the "Analyze Demo Tweets" button. *)
Definition analyze_demo_tweets (num_tweets : Z) : M unit :=
  let selected_tweets := slice_to demo_tweets num_tweets in
  emit (StSpinner (MsgAnalyzingDemo (len selected_tweets))) ;;;
  sentiments <- demo_loop selected_tweets [] ;;
  stats <- lift (sentiment_statistics sentiments) ;;
  display_summary stats ;;;
  emit (StSubheader HIndividual) ;;;
  demo_cards 1 (zip selected_tweets sentiments).

(** [scraper.get_tweets(username, mode='user', number=num_tweets)],
    line 175. *)
Definition get_tweets (username : str) (number : Z) : M tweets_dict :=
  emit (GetTweets username number) ;;;
  match scraper_get_tweets username number with
  | FetchRaises e => lift (Raise e)
  | FetchReturns tweets_data => ret tweets_data
  end.

(** Lines 178 to 226, the branch taken when tweets came back. *)
Definition analyze_fetched (tweets_data : tweets_dict) (username : str)
  : M unit :=
  tweets <- lift (tweets_of tweets_data) ;;
  emit (StSuccess (MsgFetched (len tweets) username)) ;;;
  sentiments <- fetch_loop tweets [] ;;
  stats <- lift (sentiment_statistics sentiments) ;;
  display_summary stats ;;;
  emit (StSubheader HIndividual) ;;;
  fetch_cards 1 (zip tweets sentiments).

(** Lines 175 to 230, the body of the [try]. *)
Definition fetch_and_analyze (username : str) (num_tweets : Z) : M unit :=
  tweets_data <- get_tweets username num_tweets ;;
  if has_tweets tweets_data then
    analyze_fetched tweets_data username
  else
    emit (StWarning (MsgNoTweets username)) ;;;
    emit (StInfo MsgDemoTip).

(** Lines 166 to 241, the body of the "Fetch Tweets" button. *)
Definition fetch_tweets (username : str) (num_tweets : Z) : M unit :=
  if bool_decide (username = []) then
    emit (StError MsgEnterUsername)
  else
    let username := lstrip (py "@") username in
    emit (StSpinner (MsgFetching num_tweets username)) ;;;
    try_except
      (fetch_and_analyze username num_tweets)
      (fun e =>
         emit (StError (MsgFetchFailed e)) ;;;
         emit (StInfo MsgFetchFailedHelp)).

(** Lines 56 to 241. *)
Definition main (ui : widgets) : M unit :=
  emit StTitle ;;;
  emit StMarkdownIntro ;;;
  match selected_option ui with
  | InputText =>
      if analyze_clicked ui then
        sentiment <- predict_sentiment (text_input ui) ;;
        emit (StWrite (MsgSentiment sentiment))
      else ret tt
  | GetTweetsFromUser =>
      if use_demo ui then
        emit (StInfo MsgDemoEnabled) ;;;
        if demo_clicked ui then analyze_demo_tweets (num_tweets ui)
        else ret tt
      else
        if fetch_clicked ui then fetch_tweets (username ui) (num_tweets ui)
        else ret tt
  end.

End App.

(** * Vocabulary of the statements *)

(** A token: not empty and free of white space. *)
Definition word_ok (w : str) : Prop :=
  w ≠ [] ∧ Forall (fun c => isspace c = false) w.

(** The characters line 28 can leave behind. *)
Definition lower_or_space (c : char) : Prop := is_lower c = true ∨ c = space.

(** A text is single-spaced when it neither starts nor ends with a space
    and no space follows another. *)
Definition single_spaced (text : str) : Prop :=
  head text ≠ Some space
  ∧ last text ≠ Some space
  ∧ ∀ i : nat, text !! i = Some space → text !! S i ≠ Some space.

(** A stopword list is lowercase when no entry holds an uppercase ASCII
    letter, as the entries of [stopwords.words('english')] are. *)
Definition lowercase_word (w : str) : Prop :=
  Forall (fun c => is_upper c = false) w.

(** The call contract of the artifact pair on a batch of one text: the
    model answers with one class index. *)
Definition one_class_per_text {FeatureMatrix : Type}
  (vectorizer_transform : list str → FeatureMatrix)
  (model_predict : FeatureMatrix → list Z) : Prop :=
  ∀ text : str, length (model_predict (vectorizer_transform [text])) = 1%nat.

(** Every entry is one of the two labels. *)
Definition all_labels (sentiments : list str) : Prop :=
  Forall (fun s => s = Positive ∨ s = Negative) sentiments.

(** A computation appends to the trace it is given. *)
Definition appends {A} (m : M A) : Prop :=
  ∀ tr, ∃ events, (m tr).2 = tr ++ events.

(** The results the guard of line 177 turns away: [None], a [dict] without
    a ['tweets'] entry (the empty [dict] among them), and an empty list of
    tweets. *)
Definition no_tweets (tweets_data : tweets_dict) : Prop :=
  match tweets_data with
  | None => True
  | Some d => d !! "tweets"%string = None ∨ d !! "tweets"%string = Some []
  end.

(** A fetch that failed in transport or came back empty. *)
Definition failed_or_empty (outcome : fetch_outcome) : Prop :=
  match outcome with
  | FetchRaises _ => True
  | FetchReturns tweets_data => no_tweets tweets_data
  end.

(** The events only the batch analysis produces. *)
Definition analysis_event (e : event) : Prop :=
  match e with
  | VectorizerTransform _ | ModelPredict _ | StSuccess _ | StSubheader _
  | StMetric _ _ | StBarChart _ _ | StCard _ _ _ => True
  | _ => False
  end.

(** What the user is told after such a fetch. *)
Definition fetch_report (username : str) (outcome : fetch_outcome)
  : list event :=
  match outcome with
  | FetchRaises e => [StError (MsgFetchFailed e); StInfo MsgFetchFailedHelp]
  | FetchReturns _ => [StWarning (MsgNoTweets username); StInfo MsgDemoTip]
  end.

(** A toy artifact pair for the instances below: the feature matrix is
    the batch itself and the class index of a text is its length. *)
Definition toy_model (batch : list str) : list Z :=
  List.map (fun text : str => Z.of_nat (length text)) batch.

(** A toy scraper: it raises for the empty username and returns one tweet
    for any other. *)
Definition toy_scraper (username : str) (number : Z) : fetch_outcome :=
  if bool_decide (username = []) then
    FetchRaises (ScraperError (py "no such user"))
  else
    FetchReturns
      (Some {[ "tweets"%string := [ {[ "text"%string := py "Good day" ]} ] ]}).

(** The widgets of a run in which "Fetch Tweets" is clicked for [name]. *)
Definition fetch_request (name : str) : widgets :=
  {| selected_option := GetTweetsFromUser;
     text_input := [];
     analyze_clicked := false;
     use_demo := false;
     username := name;
     num_tweets := 10;
     demo_clicked := false;
     fetch_clicked := true |}.

(** Two code points lines 27 and 28 cannot tell apart: equal ones, two
    that are both outside the ASCII letters, and an uppercase ASCII letter
    with its lowercase form. *)
Definition alike (a b : char) : Prop :=
  a = b
  ∨ (is_ascii_letter a = false ∧ is_ascii_letter b = false)
  ∨ (is_upper a = true ∧ b = a + 32)
  ∨ (is_upper b = true ∧ a = b + 32).

(** A non-empty word of lowercase ASCII letters. *)
Definition lowercase_token (w : str) : Prop :=
  w ≠ [] ∧ Forall (fun c => is_lower c = true) w.

(** The room a list of words takes when each is followed by one
    separator. *)
Definition weight (words : list str) : nat :=
  sum_list_with (fun w => S (length w)) words.

(** A computation appends to the trace only events that satisfy [P]. *)
Definition emits (P : event → Prop) {A} (m : M A) : Prop :=
  ∀ tr, ∃ events, (m tr).2 = tr ++ events ∧ Forall P events.

(** A call of [scraper.get_tweets]. *)
Definition is_scraper_call (e : event) : bool :=
  match e with
  | GetTweets _ _ => true
  | _ => false
  end.

(** How often the scraper was called. *)
Definition scraper_calls (events : list event) : nat :=
  length (List.filter is_scraper_call events).

(** "Fetch Tweets" was clicked outside demo mode with a username typed
    in. *)
Definition fetch_requested (ui : widgets) : bool :=
  match selected_option ui with
  | InputText => false
  | GetTweetsFromUser =>
      negb (use_demo ui) && fetch_clicked ui
      && negb (bool_decide (username ui = []))
  end.

(** The events of the summary, lines 128 to 140. *)
Definition summary_events (s : statistics) : list event :=
  [StSubheader HSummary;
   StMetric "Total Tweets" (MetricTotal (total_count s));
   StMetric "Positive"
     (MetricShare (positive_count s) (positive_percentage s));
   StMetric "Negative"
     (MetricShare (negative_count s) (negative_percentage s));
   StSubheader HDistribution;
   StBarChart (positive_count s) (negative_count s)].

(** One card per pair of a text and its label, numbered from [idx]
    upwards. *)
Definition card_events (idx : Z) (pairs : list (str * str)) : list event :=
  imap (fun i '(tweet_text, sentiment) =>
          StCard (idx + Z.of_nat i) sentiment tweet_text) pairs.

(** What an analysis shows after its spinner or success line: the
    collaborator calls of each text, the summary, then one card per text. *)
Definition analysis_events {FeatureMatrix : Type}
  (vectorizer_transform : list str → FeatureMatrix)
  (model_predict : FeatureMatrix → list Z) (stop_words : list str)
  (texts sentiments : list str) (stats : statistics) : list event :=
  concat (predict_events vectorizer_transform model_predict stop_words
            <$> texts)
  ++ summary_events stats
  ++ [StSubheader HIndividual]
  ++ card_events 1 (zip texts sentiments).

(** A toy scraper that returns two tweets, the second without a ['text']
    entry. *)
Definition toy_scraper_no_text (username : str) (number : Z)
  : fetch_outcome :=
  FetchReturns
    (Some {[ "tweets"%string :=
               [ {[ "text"%string := py "Good day" ]};
                 {[ "link"%string := py "/bob/status/1" ]} ] ]}).

(** The widgets of a run in which "Analyze Demo Tweets" is clicked with the
    slider at [n]. *)
Definition demo_request (n : Z) : widgets :=
  {| selected_option := GetTweetsFromUser;
     text_input := [];
     analyze_clicked := false;
     use_demo := true;
     username := py "demo_user";
     num_tweets := n;
     demo_clicked := true;
     fetch_clicked := false |}.

(** The widgets of a run in which "Analyze" is clicked for [text]. *)
Definition input_request (text : str) : widgets :=
  {| selected_option := InputText;
     text_input := text;
     analyze_clicked := true;
     use_demo := false;
     username := [];
     num_tweets := 0;
     demo_clicked := false;
     fetch_clicked := false |}.

(** How every card of [create_card] starts, up to its colour. *)
Definition card_open : str :=
  newline ++ py "    <div style=" ++ double_quote ++ py "background-color: ".

(** How every card of [create_card] ends, after the tweet text. *)
Definition card_close : str :=
  py "</p>" ++ newline ++ py "    </div>" ++ newline ++ py "    ".

(** The tweet and the [dict] the toy scraper returns. *)
Definition toy_tweet : gmap string (list N) :=
  {[ "text"%string := py "Good day" ]}.

Definition toy_tweets_data : gmap string (list (gmap string (list N))) :=
  {[ "tweets"%string := [toy_tweet] ]}.

(** The two tweets the second toy scraper returns. *)
Definition toy_tweet_no_text : gmap string (list N) :=
  {[ "link"%string := py "/bob/status/1" ]}.

Definition toy_tweets_data_no_text
  : gmap string (list (gmap string (list N))) :=
  {[ "tweets"%string := [toy_tweet; toy_tweet_no_text] ]}.

(** * Properties *)

(** ** The normalizer *)

Example preprocess_demo :
  preprocess (py "I absolutely LOVE this product!!  Best #1")
             [py "i"; py "this"]
  = py "absolutely love product best".
Proof. vm_compute. reflexivity. Qed.

(** White space other than the ASCII space never survives line 27, and a
    text made of white space only has no token. *)
Example preprocess_blank :
  preprocess [9; 160; 12288; 32; 10] [] = [].
Proof. vm_compute. reflexivity. Qed.

Lemma is_lower_not_space c : is_lower c = true → isspace c = false.
Proof.
  unfold is_lower, isspace. intros H.
  apply andb_true_iff in H as [H1 H2].
  apply N.leb_le in H1, H2.
  repeat match goal with
  | |- context [?a <=? ?b] => destruct (N.leb_spec a b); try lia
  | |- context [?a =? ?b] => destruct (N.eqb_spec a b); try lia
  end; reflexivity.
Qed.

Lemma isspace_space : isspace space = true.
Proof. reflexivity. Qed.

Lemma lower_re_sub_char c :
  lower_or_space (lower_char (if is_ascii_letter c then c else space)).
Proof.
  unfold lower_or_space, is_ascii_letter.
  destruct (is_lower c) eqn:Hl; simpl.
  - left. unfold lower_char.
    destruct (is_upper c) eqn:Hu; [|done].
    unfold is_lower, is_upper in *.
    apply andb_true_iff in Hl as [?%N.leb_le ?%N.leb_le].
    apply andb_true_iff in Hu as [?%N.leb_le ?%N.leb_le]. lia.
  - destruct (is_upper c) eqn:Hu.
    + left. unfold lower_char. rewrite Hu.
      unfold is_lower, is_upper in *.
      apply andb_true_iff in Hu as [?%N.leb_le ?%N.leb_le].
      apply andb_true_iff. split; apply N.leb_le; lia.
    + right. reflexivity.
Qed.

(** After lines 27 and 28 the text holds lowercase letters and spaces
    only. *)
Lemma re_sub_non_letters_chars text :
  Forall lower_or_space (lower (re_sub_non_letters text)).
Proof.
  induction text as [|c text IH]; [constructor|].
  constructor; [apply lower_re_sub_char | exact IH].
Qed.

(** A lowercase letter or a space is left alone by lines 27 and 28. *)
Lemma lower_re_sub_fixed text :
  Forall lower_or_space text → lower (re_sub_non_letters text) = text.
Proof.
  induction 1 as [|c text Hc _ IH]; [done|].
  unfold lower, re_sub_non_letters in *. simpl. rewrite IH. f_equal.
  destruct Hc as [Hl | ->]; [|reflexivity].
  unfold is_ascii_letter. rewrite Hl. simpl. unfold lower_char.
  destruct (is_upper c) eqn:Hu; [|done].
  unfold is_lower, is_upper in *.
  apply andb_true_iff in Hl as [?%N.leb_le ?%N.leb_le].
  apply andb_true_iff in Hu as [?%N.leb_le ?%N.leb_le]. lia.
Qed.

Lemma push_word_Forall (P : str → Prop) w ws :
  (w ≠ [] → P w) → Forall P ws → Forall P (push_word w ws).
Proof. destruct w; simpl; intros Hw Hws; [done|]. constructor; auto. Qed.

(** The scan keeps the characters it is given and closes words at white
    space only. *)
Lemma split_scan_chars (P : char → Prop) text :
  Forall P text →
  Forall P (split_scan text).1 ∧ Forall (Forall P) (split_scan text).2.
Proof.
  induction 1 as [|c text Hc _ [IHw IHws]]; simpl; [by split|].
  destruct (split_scan text) as [w ws]. simpl in *.
  destruct (isspace c); simpl.
  - split; [constructor|]. apply push_word_Forall; auto.
  - split; [constructor|]; auto.
Qed.

Lemma split_scan_words text :
  Forall (fun c => isspace c = false) (split_scan text).1
  ∧ Forall word_ok (split_scan text).2.
Proof.
  induction text as [|c text [IHw IHws]]; simpl; [by split|].
  destruct (split_scan text) as [w ws]. simpl in *.
  destruct (isspace c) eqn:Hc; simpl.
  - split; [constructor|]. apply push_word_Forall; [|done]. by split.
  - split; [constructor|]; auto.
Qed.

(** Every token of [split()] is non-empty and free of white space. *)
Lemma split_words text : Forall word_ok (split text).
Proof.
  unfold split. pose proof (split_scan_words text) as [Hw Hws].
  destruct (split_scan text) as [w ws]. simpl in *.
  apply push_word_Forall; [|done]. by split.
Qed.

Lemma split_chars (P : char → Prop) text :
  Forall P text → Forall (Forall P) (split text).
Proof.
  intros H. unfold split. pose proof (split_scan_chars P text H) as [Hw Hws].
  destruct (split_scan text) as [w ws]. simpl in *.
  apply push_word_Forall; auto.
Qed.

(** The scan runs through a prefix that is free of white space. *)
Lemma split_scan_app w text :
  Forall (fun c => isspace c = false) w →
  split_scan (w ++ text)
  = (w ++ (split_scan text).1, (split_scan text).2).
Proof.
  induction 1 as [|c w Hc _ IH]; simpl.
  - by destruct (split_scan text).
  - rewrite IH, Hc. reflexivity.
Qed.

Lemma split_scan_space text :
  split_scan (space :: text) = ([], split text).
Proof. unfold split. simpl. by destruct (split_scan text). Qed.

(** Splitting undoes joining with one space, for tokens. *)
Lemma split_join words :
  Forall word_ok words → split (join [space] words) = words.
Proof.
  induction 1 as [|w ws [Hne Hw] Hws IH]; [done|].
  destruct ws as [|w' ws].
  - simpl. unfold split.
    rewrite <- (app_nil_r w) at 1. rewrite split_scan_app by done.
    simpl. rewrite app_nil_r. by destruct w.
  - change (join [space] (w :: w' :: ws))
      with (w ++ space :: join [space] (w' :: ws)).
    unfold split at 1. rewrite split_scan_app by done.
    rewrite split_scan_space, IH. simpl. rewrite app_nil_r. by destruct w.
Qed.

Lemma join_chars (P : char → Prop) sep words :
  Forall P sep → Forall (Forall P) words → Forall P (join sep words).
Proof.
  intros Hsep. induction 1 as [|w ws Hw Hws IH]; [constructor|].
  destruct ws as [|w' ws]; [done|].
  change (join sep (w :: w' :: ws)) with (w ++ sep ++ join sep (w' :: ws)).
  rewrite !Forall_app. auto.
Qed.

Lemma word_ok_no_space w c : word_ok w → c ∈ w → c ≠ space.
Proof.
  intros [_ Hw] Hc ->. rewrite Forall_forall in Hw.
  specialize (Hw _ Hc). by rewrite isspace_space in Hw.
Qed.

Lemma word_single_spaced w : word_ok w → single_spaced w.
Proof.
  intros Hw. split_and!.
  - destruct w as [|c w]; [done|]. simpl. intros [= ->].
    eapply word_ok_no_space; [done| |done]. left.
  - intros Hl. apply last_Some_elem_of in Hl.
    by eapply word_ok_no_space.
  - intros i Hi _. apply list_elem_of_lookup_2 in Hi.
    by eapply word_ok_no_space.
Qed.

(** Putting a token and one space in front keeps a text single-spaced. *)
Lemma single_spaced_cons_word w text :
  word_ok w → text ≠ [] → single_spaced text →
  single_spaced (w ++ space :: text).
Proof.
  intros Hw Hne (Hhd & Hlast & Hadj). split_and!.
  - destruct w as [|c w]; [by destruct Hw|]. simpl. intros [= ->].
    eapply word_ok_no_space; [done| |done]. left.
  - rewrite last_app. destruct text as [|c text]; [done|].
    rewrite last_cons. destruct (last (c :: text)) eqn:E; [done|].
    by apply last_None in E.
  - intros i Hi Hsi.
    destruct (decide (i < length w)%nat) as [Hlt|Hge].
    + rewrite lookup_app_l in Hi by done.
      apply list_elem_of_lookup_2 in Hi. by eapply word_ok_no_space.
    + rewrite lookup_app_r in Hsi by lia.
      replace (S i - length w)%nat with (S (i - length w)) in Hsi by lia.
      simpl in Hsi.
      destruct (decide (i = length w)) as [->|Hne'].
      * rewrite Nat.sub_diag in Hsi. by destruct text.
      * rewrite lookup_app_r in Hi by lia.
        replace (i - length w)%nat with (S (i - length w - 1)) in Hi, Hsi
          by lia.
        simpl in Hi. by apply Hadj in Hi.
Qed.

Lemma join_nonempty words :
  Forall word_ok words → words ≠ [] → join [space] words ≠ [].
Proof.
  intros Hws Hne. destruct Hws as [|w ws [Hw _] _]; [done|].
  destruct ws; simpl; [done|]. by destruct w.
Qed.

(** The join of tokens with one space is single-spaced. *)
Lemma join_single_spaced words :
  Forall word_ok words → single_spaced (join [space] words).
Proof.
  induction 1 as [|w ws Hw Hws IH].
  - split_and!; [done|done|]. intros i Hi. simpl in Hi.
    by rewrite lookup_nil in Hi.
  - destruct ws as [|w' ws]; [by apply word_single_spaced|].
    change (join [space] (w :: w' :: ws))
      with (w ++ space :: join [space] (w' :: ws)).
    apply single_spaced_cons_word; [done| |done].
    by apply join_nonempty.
Qed.

(** The tokens that reach line 31: lowercase words outside the stopword
    list. *)
Lemma kept_words text stop_words :
  let words :=
    remove_stop_words stop_words (split (lower (re_sub_non_letters text))) in
  Forall word_ok words
  ∧ Forall (Forall lower_or_space) words
  ∧ Forall (fun w => w ∉ stop_words) words.
Proof.
  cbv zeta. unfold remove_stop_words.
  split_and!; apply Forall_forall; intros w [Hout Hw]%list_elem_of_filter.
  - clear Hout. revert w Hw. apply Forall_forall, split_words.
  - clear Hout. revert w Hw.
    apply Forall_forall, split_chars, re_sub_non_letters_chars.
  - exact Hout.
Qed.

Lemma filter_all {A} (P : A → Prop) `{!∀ x, Decision (P x)} (l : list A) :
  Forall P l → filter P l = l.
Proof.
  induction 1 as [|x l Hx _ IH]; [done|].
  rewrite filter_cons_True by done. by rewrite IH.
Qed.

(** The normalizer returns the kept words joined by one space, and
    splitting its output gives those words back. *)
Lemma split_preprocess text stop_words :
  split (preprocess text stop_words)
  = remove_stop_words stop_words (split (lower (re_sub_non_letters text))).
Proof.
  unfold preprocess. apply split_join. apply kept_words.
Qed.

(** The normalizer leaves its own output unchanged, whatever the stopword
    list holds. *)
Lemma preprocess_fixed text stop_words :
  preprocess (preprocess text stop_words) stop_words
  = preprocess text stop_words.
Proof.
  pose proof (kept_words text stop_words) as (Hok & Hchars & Hout).
  cbv zeta in *. unfold preprocess at 1.
  rewrite lower_re_sub_fixed.
  - rewrite split_preprocess. unfold remove_stop_words at 1.
    by rewrite filter_all.
  - unfold preprocess. apply join_chars; [|exact Hchars].
    constructor; [by right|constructor].
Qed.

(** C1: for every input string and every stopword list, the output of the
    normalization step of [predict_sentiment] (lines 27 to 31) contains only
    lowercase ASCII letters and spaces, the spaces are single (none leads,
    none trails, none follows another), and no token of the output is a
    member of the stopword list. *)
Theorem preprocess_lowercase_single_spaced_no_stopword
  (text : str) (stop_words : list str) :
  Forall lower_or_space (preprocess text stop_words)
  ∧ single_spaced (preprocess text stop_words)
  ∧ ∀ token, token ∈ split (preprocess text stop_words) → token ∉ stop_words.
Proof.
  pose proof (kept_words text stop_words) as (Hok & Hchars & Hout).
  cbv zeta in *. split_and!.
  - unfold preprocess. apply join_chars; [|exact Hchars].
    constructor; [by right|constructor].
  - unfold preprocess. by apply join_single_spaced.
  - rewrite split_preprocess. by apply Forall_forall.
Qed.

(** C9: the normalization step is idempotent: for every string and every
    stopword list whose members are lowercase, normalizing the normalized
    output again yields the same string as normalizing once. *)
Theorem preprocess_idempotent (text : str) (stop_words : list str) :
  Forall lowercase_word stop_words →
  preprocess (preprocess text stop_words) stop_words
  = preprocess text stop_words.
Proof. intros _. apply preprocess_fixed. Qed.

Lemma preprocess_idempotent_witness :
  Forall lowercase_word [py "the"; py "is"]
  ∧ preprocess (preprocess (py "The CAT is  here!") [py "the"; py "is"])
               [py "the"; py "is"]
    = preprocess (py "The CAT is  here!") [py "the"; py "is"].
Proof.
  assert (H : Forall lowercase_word [py "the"; py "is"])
    by (repeat constructor).
  split; [exact H|].
  exact (preprocess_idempotent (py "The CAT is  here!") [py "the"; py "is"] H).
Defined.

(** ** The predictor *)

Lemma Negative_ne_Positive : Negative ≠ Positive.
Proof. discriminate. Qed.

Section PredictorFacts.

Context {FeatureMatrix : Type}.
Variable vectorizer_transform : list str → FeatureMatrix.
Variable model_predict : FeatureMatrix → list Z.
Variable stop_words : list str.

Local Abbreviation predict :=
  (predict_sentiment vectorizer_transform model_predict stop_words).
Local Abbreviation classes :=
  (classes_of vectorizer_transform model_predict stop_words).
Local Abbreviation label :=
  (label_of vectorizer_transform model_predict stop_words).

(** One call of [predict_sentiment]: two collaborator calls are logged and
    the outcome is [label_of]. *)
Lemma predict_sentiment_run text tr :
  predict text tr
  = (label text,
     tr ++ [VectorizerTransform [preprocess text stop_words];
            ModelPredict (classes text)]).
Proof.
  unfold predict_sentiment, label_of, classes_of, bind, emit, lift, ret.
  rewrite <- app_assoc. simpl.
  by destruct (ndarray_bool _).
Qed.

Lemma label_of_class text c :
  classes text = [c] →
  label text = Ok (if bool_decide (c = 0%Z) then Negative else Positive).
Proof. unfold label_of. intros ->. reflexivity. Qed.

Lemma label_of_contract text :
  one_class_per_text vectorizer_transform model_predict →
  ∃ c, classes text = [c].
Proof.
  intros H. specialize (H (preprocess text stop_words)).
  unfold classes_of. destruct (model_predict _) as [|c [|? ?]]; try done.
  by exists c.
Qed.

(** C2: for every input string, when the classifier returns a class index
    in {0,1}, [predict_sentiment] returns "Negative" if and only if that
    index is 0 and "Positive" if and only if it is 1. *)
Theorem predict_sentiment_label (text : str) (c : Z) (tr : list event) :
  model_predict (vectorizer_transform [preprocess text stop_words]) = [c] →
  c = 0%Z ∨ c = 1%Z →
  ((predict text tr).1 = Ok Negative ↔ c = 0%Z)
  ∧ ((predict text tr).1 = Ok Positive ↔ c = 1%Z).
Proof.
  intros Hc Hrange. rewrite predict_sentiment_run. simpl.
  rewrite (label_of_class text c Hc).
  destruct Hrange as [-> | ->]; simpl; split; split; try done.
Qed.

(** C5: [predict_sentiment] is deterministic: with the vectorizer, the
    classifier and the stopword list fixed, the outcome for a string does
    not depend on what ran before, and a second call right after the first
    gives the same outcome. *)
Theorem predict_sentiment_deterministic (text : str) :
  (∀ tr1 tr2 : list event, (predict text tr1).1 = (predict text tr2).1)
  ∧ (∀ (tr tr' : list event) (first second : str),
       (first <- predict text ;; second <- predict text ;;
        ret (first, second)) tr = (Ok (first, second), tr') →
       first = second).
Proof.
  split.
  - intros tr1 tr2. by rewrite !predict_sentiment_run.
  - intros tr tr' first second. unfold bind, ret.
    rewrite predict_sentiment_run.
    destruct (label text) as [label|e] eqn:Hlabel; [|done].
    rewrite predict_sentiment_run, Hlabel. by intros [= <- <- _].
Qed.

(** C6: on the empty string, given a vectorizer and a classifier that keep
    their call contract, [predict_sentiment] returns without raising, and
    what it returns is "Positive" or "Negative". *)
Theorem predict_sentiment_empty (tr : list event) :
  one_class_per_text vectorizer_transform model_predict →
  ∃ label : str,
    predict [] tr
    = (Ok label,
       tr ++ [VectorizerTransform [[]];
              ModelPredict (model_predict (vectorizer_transform [[]]))])
    ∧ (label = Positive ∨ label = Negative).
Proof.
  intros Hcontract. rewrite predict_sentiment_run.
  destruct (label_of_contract [] Hcontract) as [c Hc].
  rewrite (label_of_class [] c Hc).
  exists (if bool_decide (c = 0%Z) then Negative else Positive). split.
  - reflexivity.
  - destruct (bool_decide _); auto.
Qed.

End PredictorFacts.

Lemma predict_sentiment_label_witness :
  toy_model (id [preprocess (py "not!") [py "not"]]) = [0%Z]
  ∧ (0%Z = 0%Z ∨ 0%Z = 1%Z)
  ∧ ((predict_sentiment id toy_model [py "not"] (py "not!") []).1
       = Ok Negative ↔ 0%Z = 0%Z)
  ∧ ((predict_sentiment id toy_model [py "not"] (py "not!") []).1
       = Ok Positive ↔ 0%Z = 1%Z).
Proof.
  assert (H1 : toy_model (id [preprocess (py "not!") [py "not"]]) = [0%Z])
    by (vm_compute; reflexivity).
  assert (H2 : 0%Z = 0%Z ∨ 0%Z = 1%Z) by (left; reflexivity).
  split; [exact H1|]. split; [exact H2|].
  exact (predict_sentiment_label id toy_model [py "not"] (py "not!") 0%Z []
           H1 H2).
Defined.

Lemma predict_sentiment_empty_witness :
  one_class_per_text id toy_model
  ∧ ∃ label : str,
      predict_sentiment id toy_model [py "the"] [] []
      = (Ok label, [] ++ [VectorizerTransform [[]]; ModelPredict [0%Z]])
      ∧ (label = Positive ∨ label = Negative).
Proof.
  assert (H : one_class_per_text id
                toy_model)
    by (intros text; reflexivity).
  split; [exact H|].
  exact (predict_sentiment_empty id
           toy_model
           [py "the"] [] H).
Defined.

(** ** The batch loops and the counts *)

(** The two counts of lines 121 and 122 add up to the length when only the
    two labels occur. *)
Lemma count_labels sentiments :
  all_labels sentiments →
  (count Positive sentiments + count Negative sentiments = len sentiments)%Z.
Proof.
  unfold count, len. induction 1 as [|s l Hs _ IH]; [done|].
  rewrite !filter_cons. simpl length.
  destruct Hs as [-> | ->].
  - rewrite decide_True by done.
    rewrite decide_False by (symmetry; apply Negative_ne_Positive).
    simpl length. lia.
  - rewrite decide_False by apply Negative_ne_Positive.
    rewrite decide_True by done. simpl length. lia.
Qed.

Section BatchFacts.

Context {FeatureMatrix : Type}.
Variable vectorizer_transform : list str → FeatureMatrix.
Variable model_predict : FeatureMatrix → list Z.
Variable stop_words : list str.

Local Abbreviation predict :=
  (predict_sentiment vectorizer_transform model_predict stop_words).
Local Abbreviation label :=
  (label_of vectorizer_transform model_predict stop_words).
Local Abbreviation predict_events :=
  (predict_events vectorizer_transform model_predict stop_words).

Lemma label_is_label text sentiment :
  label text = Ok sentiment → sentiment = Positive ∨ sentiment = Negative.
Proof.
  unfold label_of. destruct (ndarray_bool _) as [[]|]; intros [= <-]; auto.
Qed.

Lemma label_total text :
  one_class_per_text vectorizer_transform model_predict →
  ∃ sentiment, label text = Ok sentiment.
Proof.
  intros H. destruct (label_of_contract _ _ stop_words text H) as [c Hc].
  rewrite (label_of_class _ _ _ text c Hc). eauto.
Qed.

(** The demo loop appends, in input order, the label of each text. *)
Lemma demo_loop_run selected_tweets sentiments tr :
  one_class_per_text vectorizer_transform model_predict →
  ∃ labels,
    demo_loop vectorizer_transform model_predict stop_words
      selected_tweets sentiments tr
    = (Ok (sentiments ++ labels),
       tr ++ concat (predict_events <$> selected_tweets))
    ∧ Forall2 (fun text sentiment => label text = Ok sentiment)
        selected_tweets labels.
Proof.
  intros Hcontract. revert sentiments tr.
  induction selected_tweets as [|text rest IH]; intros sentiments tr.
  - exists []. simpl. unfold ret. by rewrite !app_nil_r.
  - destruct (label_total text Hcontract) as [sentiment Hs].
    destruct (IH (sentiments ++ [sentiment]) (tr ++ predict_events text))
      as (labels & Hrun & Hlabels).
    exists (sentiment :: labels). split; [|by constructor].
    simpl. unfold bind at 1. rewrite predict_sentiment_run, Hs.
    fold (predict_events text). rewrite Hrun.
    by rewrite <- !app_assoc.
Qed.

(** The fetch loop does the same on the ['text'] entries. *)
Lemma fetch_loop_run tweets selected_tweets sentiments tr :
  one_class_per_text vectorizer_transform model_predict →
  Forall2 (fun (tweet : tweet) text => tweet !! "text"%string = Some text)
    tweets selected_tweets →
  fetch_loop vectorizer_transform model_predict stop_words
    tweets sentiments tr
  = demo_loop vectorizer_transform model_predict stop_words
      selected_tweets sentiments tr.
Proof.
  intros Hcontract Htexts. revert sentiments tr.
  induction Htexts as [|tweet text tweets rest Htext _ IH];
    intros sentiments tr; [done|].
  simpl. unfold bind, lift, getitem. rewrite Htext.
  rewrite predict_sentiment_run.
  destruct (label text); [apply IH|done].
Qed.

(** A loop that returns has appended one label per text, whatever the
    artifacts answer. *)
Lemma demo_loop_length selected_tweets sentiments tr result tr' :
  demo_loop vectorizer_transform model_predict stop_words
    selected_tweets sentiments tr = (Ok result, tr') →
  length result = (length sentiments + length selected_tweets)%nat.
Proof.
  revert sentiments tr.
  induction selected_tweets as [|text rest IH]; intros sentiments tr; simpl.
  - unfold ret. intros [= <- _]. lia.
  - unfold bind. rewrite predict_sentiment_run.
    destruct (label text) as [sentiment|e]; [|done].
    intros Hrun%IH. rewrite length_app in Hrun. simpl in Hrun. lia.
Qed.

Lemma fetch_loop_length tweets sentiments tr result tr' :
  fetch_loop vectorizer_transform model_predict stop_words
    tweets sentiments tr = (Ok result, tr') →
  length result = (length sentiments + length tweets)%nat.
Proof.
  revert sentiments tr.
  induction tweets as [|tweet rest IH]; intros sentiments tr; simpl.
  - unfold ret. intros [= <- _]. lia.
  - unfold bind, lift. destruct (getitem tweet "text") as [text|e]; [|done].
    rewrite predict_sentiment_run.
    destruct (label text) as [sentiment|e]; [|done].
    intros Hrun%IH. rewrite length_app in Hrun. simpl in Hrun. lia.
Qed.

(** C3: for every ordered sequence of texts of length n, the batch loop
    (over the texts themselves in demo mode, over the text entries of the
    fetched tweets otherwise) returns exactly n labels, the label at each
    position being the one [predict_sentiment] gives the text at that
    position, and the counts of lines 121 to 123 satisfy
    positive_count + negative_count = n = total_count. *)
Theorem batch_results_in_order
  (texts : list str) (tweets : list tweet) (tr : list event) :
  one_class_per_text vectorizer_transform model_predict →
  Forall2 (fun (tweet : tweet) text => tweet !! "text"%string = Some text)
    tweets texts →
  ∃ (sentiments : list str) (tr' : list event),
    demo_loop vectorizer_transform model_predict stop_words texts [] tr
      = (Ok sentiments, tr')
    ∧ fetch_loop vectorizer_transform model_predict stop_words tweets [] tr
      = (Ok sentiments, tr')
    ∧ length sentiments = length texts
    ∧ Forall2 (fun text sentiment =>
                 ∀ tr0, (predict text tr0).1 = Ok sentiment)
        texts sentiments
    ∧ ∃ positive_count negative_count : Z,
        sentiment_counts sentiments
          = (positive_count, negative_count, len texts)
        ∧ (positive_count + negative_count = len texts)%Z.
Proof.
  intros Hcontract Htexts.
  destruct (demo_loop_run texts [] tr Hcontract) as (labels & Hrun & Hlabels).
  simpl in Hrun.
  assert (Hlen : length labels = length texts)
    by (symmetry; eapply Forall2_length; exact Hlabels).
  exists labels, (tr ++ concat (predict_events <$> texts)).
  split_and!.
  - exact Hrun.
  - by rewrite (fetch_loop_run tweets texts [] tr Hcontract Htexts).
  - exact Hlen.
  - eapply Forall2_impl; [exact Hlabels|].
    intros text sentiment Hl tr0. by rewrite predict_sentiment_run.
  - exists (count Positive labels), (count Negative labels).
    unfold sentiment_counts, len. rewrite Hlen. split; [done|].
    rewrite <- Hlen. apply count_labels.
    apply Forall_forall. intros s Hs.
    apply list_elem_of_lookup in Hs as [i Hi].
    destruct (Forall2_lookup_r _ _ _ _ _ Hlabels Hi) as (text & _ & Hl).
    by eapply label_is_label.
Qed.

End BatchFacts.

Lemma batch_results_in_order_witness :
  one_class_per_text id toy_model
  ∧ Forall2 (fun (tweet : tweet) text => tweet !! "text"%string = Some text)
      [ {[ "text"%string := py "Good day" ]}; {[ "text"%string := py "!" ]} ]
      [py "Good day"; py "!"]
  ∧ ∃ (sentiments : list str) (tr' : list event),
      demo_loop id toy_model [] [py "Good day"; py "!"] [] []
        = (Ok sentiments, tr')
      ∧ fetch_loop id toy_model []
          [ {[ "text"%string := py "Good day" ]};
            {[ "text"%string := py "!" ]} ] [] []
        = (Ok sentiments, tr')
      ∧ length sentiments = length [py "Good day"; py "!"]
      ∧ Forall2 (fun text sentiment =>
                   ∀ tr0, (predict_sentiment id toy_model [] text tr0).1
                          = Ok sentiment)
          [py "Good day"; py "!"] sentiments
      ∧ ∃ positive_count negative_count : Z,
          sentiment_counts sentiments
            = (positive_count, negative_count, len [py "Good day"; py "!"])
          ∧ (positive_count + negative_count
             = len [py "Good day"; py "!"])%Z.
Proof.
  assert (H1 : one_class_per_text id toy_model) by (intros text; reflexivity).
  assert (H2 : Forall2
            (fun (tweet : tweet) text => tweet !! "text"%string = Some text)
            [ {[ "text"%string := py "Good day" ]};
              {[ "text"%string := py "!" ]} ]
            [py "Good day"; py "!"])
    by (repeat constructor).
  split; [exact H1|]. split; [exact H2|].
  exact (batch_results_in_order id toy_model []
           [py "Good day"; py "!"]
           [ {[ "text"%string := py "Good day" ]};
             {[ "text"%string := py "!" ]} ] [] H1 H2).
Defined.

(** ** The statistics block *)

Example statistics_half :
  sentiment_statistics [Positive; Negative; Negative; Positive]
  = Ok {| positive_count := 2; negative_count := 2; total_count := 4;
          positive_percentage := 50%float;
          negative_percentage := 50%float |}.
Proof. reflexivity. Qed.

(** Against C4 as stated: on the empty list of labels the statistics block
    stops at line 124 with a [ZeroDivisionError]; it returns no
    percentages. *)
Lemma sentiment_statistics_empty_raises :
  sentiment_statistics [] = Raise ZeroDivisionError
  ∧ ¬ ∃ s : statistics,
        sentiment_statistics [] = Ok s
        ∧ total_count s = 0%Z
        ∧ positive_percentage s = 0%float
        ∧ negative_percentage s = 0%float.
Proof.
  split; [reflexivity|]. intros (s & Hs & _). discriminate Hs.
Qed.

Lemma sentiment_statistics_nonempty sentiments :
  sentiments ≠ [] →
  sentiment_statistics sentiments
  = Ok {| positive_count := count Positive sentiments;
          negative_count := count Negative sentiments;
          total_count := len sentiments;
          positive_percentage :=
            (float_of_Z (count Positive sentiments)
             / float_of_Z (len sentiments) * 100)%float;
          negative_percentage :=
            (float_of_Z (count Negative sentiments)
             / float_of_Z (len sentiments) * 100)%float |}.
Proof.
  intros Hne. unfold sentiment_statistics, sentiment_counts, truediv.
  rewrite !decide_False; [reflexivity| |];
    unfold len; destruct sentiments; simpl; try done; lia.
Qed.

(** The guard of line 177 lets a non-empty list of tweets through and
    nothing else. *)
Lemma has_tweets_true tweets_data :
  has_tweets tweets_data = true →
  ∃ tweets, tweets_of tweets_data = Ok tweets ∧ tweets ≠ [].
Proof.
  destruct tweets_data as [d|]; [|done]. simpl.
  intros [_ H]%andb_true_iff. unfold getitem.
  destruct (d !! "tweets"%string) as [tweets|]; [|done].
  exists tweets. split; [done|]. intros ->. done.
Qed.

(** The demo slider offers 5, 10, 15 and 20: the slice of line 111 then has
    that many texts. *)
Lemma demo_slice_length n :
  (5 ≤ n ≤ 20)%Z → len (slice_to demo_tweets n) = n.
Proof.
  intros Hn. unfold slice_to, len.
  destruct (Z.leb_spec 0 n); [|lia].
  rewrite length_take. change (length demo_tweets) with 20%nat. lia.
Qed.

(** ** The trace only grows *)

Lemma appends_ret {A} (a : A) : appends (ret a).
Proof. intros tr. exists []. simpl. by rewrite app_nil_r. Qed.

Lemma appends_lift {A} (r : res A) : appends (lift r).
Proof. intros tr. exists []. simpl. by rewrite app_nil_r. Qed.

Lemma appends_emit e : appends (emit e).
Proof. intros tr. by exists [e]. Qed.

Lemma appends_bind {A B} (m : M A) (k : A → M B) :
  appends m → (∀ a, appends (k a)) → appends (bind m k).
Proof.
  intros Hm Hk tr. unfold bind.
  destruct (Hm tr) as [events1 H1].
  destruct (m tr) as [[a|e] tr1]; simpl in *; subst tr1.
  - destruct (Hk a (tr ++ events1)) as [events2 H2].
    exists (events1 ++ events2). by rewrite H2, app_assoc.
  - by exists events1.
Qed.

Lemma appends_try_except {A} (body : M A) (handler : exn → M A) :
  appends body → (∀ e, appends (handler e)) → appends (try_except body handler).
Proof.
  intros Hm Hk tr. unfold try_except.
  destruct (Hm tr) as [events1 H1].
  destruct (body tr) as [[a|e] tr1]; simpl in *; subst tr1.
  - by exists events1.
  - destruct (Hk e (tr ++ events1)) as [events2 H2].
    exists (events1 ++ events2). by rewrite H2, app_assoc.
Qed.

Ltac appends_steps :=
  repeat lazymatch goal with
  | |- appends (bind _ _) => apply appends_bind; [|intros ?]
  | |- appends (try_except _ _) => apply appends_try_except; [|intros ?]
  | |- appends (ret _) => apply appends_ret
  | |- appends (lift _) => apply appends_lift
  | |- appends (emit _) => apply appends_emit
  end.

Lemma appends_display_summary s : appends (display_summary s).
Proof. unfold display_summary. appends_steps. Qed.

Lemma appends_demo_cards idx pairs : appends (demo_cards idx pairs).
Proof.
  revert idx. induction pairs as [|[tweet_text sentiment] rest IH];
    intros idx; simpl; [apply appends_ret|].
  appends_steps. apply IH.
Qed.

Lemma appends_fetch_cards idx pairs : appends (fetch_cards idx pairs).
Proof.
  revert idx. induction pairs as [|[tweet sentiment] rest IH];
    intros idx; simpl; [apply appends_ret|].
  appends_steps. apply IH.
Qed.

Lemma lstrip_all chars text :
  Forall (fun c => c ∈ chars) text → lstrip chars text = [].
Proof.
  induction 1 as [|c text Hc _ IH]; [done|].
  simpl. by rewrite bool_decide_eq_true_2.
Qed.

Lemma has_tweets_false tweets_data :
  no_tweets tweets_data → has_tweets tweets_data = false.
Proof.
  destruct tweets_data as [d|]; [|done]. simpl.
  intros [-> | ->]; apply andb_false_r.
Qed.

Lemma failed_or_empty_dec outcome :
  failed_or_empty outcome ∨ ¬ failed_or_empty outcome.
Proof.
  destruct outcome as [e|[d|]]; simpl; auto.
  destruct (d !! "tweets"%string) as [[|tweet tweets]|]; auto.
  right. by intros [|].
Qed.

(** ** The page *)

Section MainFacts.

Context {FeatureMatrix : Type}.
Variable vectorizer_transform : list str → FeatureMatrix.
Variable model_predict : FeatureMatrix → list Z.
Variable stop_words : list str.
Variable scraper_get_tweets : str → Z → fetch_outcome.

Local Abbreviation run_main :=
  (main vectorizer_transform model_predict stop_words scraper_get_tweets).
Local Abbreviation run_fetch_tweets :=
  (fetch_tweets vectorizer_transform model_predict stop_words
     scraper_get_tweets).

Lemma appends_predict_sentiment text :
  appends (predict_sentiment vectorizer_transform model_predict stop_words text).
Proof. unfold predict_sentiment. appends_steps. Qed.

Lemma appends_fetch_loop tweets sentiments :
  appends (fetch_loop vectorizer_transform model_predict stop_words
             tweets sentiments).
Proof.
  revert sentiments. induction tweets as [|tweet rest IH];
    intros sentiments; simpl; [apply appends_ret|].
  appends_steps; [apply appends_predict_sentiment | apply IH].
Qed.

Lemma appends_analyze_fetched tweets_data username :
  appends (analyze_fetched vectorizer_transform model_predict stop_words
             tweets_data username).
Proof.
  unfold analyze_fetched. appends_steps.
  - apply appends_fetch_loop.
  - apply appends_display_summary.
  - apply appends_fetch_cards.
Qed.

(** With "Get tweets from user" chosen, demo mode off and "Fetch Tweets"
    clicked, the page runs the fetch branch after its two header calls. *)
Lemma main_fetch ui tr :
  selected_option ui = GetTweetsFromUser →
  use_demo ui = false →
  fetch_clicked ui = true →
  run_main ui tr
  = run_fetch_tweets (username ui) (num_tweets ui)
      (tr ++ [StTitle; StMarkdownIntro]).
Proof.
  intros Hopt Hdemo Hfetch. unfold main, bind, emit.
  rewrite Hopt, Hdemo, Hfetch. by rewrite <- app_assoc.
Qed.

Lemma fetch_tweets_empty num_tweets tr :
  run_fetch_tweets [] num_tweets tr = (Ok tt, tr ++ [StError MsgEnterUsername]).
Proof. reflexivity. Qed.

(** A fetch that raises or comes back empty ends in the report alone. *)
Lemma fetch_tweets_failed username num_tweets tr :
  username ≠ [] →
  failed_or_empty
    (scraper_get_tweets (lstrip (py "@") username) num_tweets) →
  run_fetch_tweets username num_tweets tr
  = (Ok tt,
     tr ++ [StSpinner (MsgFetching num_tweets (lstrip (py "@") username));
            GetTweets (lstrip (py "@") username) num_tweets]
        ++ fetch_report (lstrip (py "@") username)
             (scraper_get_tweets (lstrip (py "@") username) num_tweets)).
Proof.
  intros Hne Hfail. unfold fetch_tweets.
  rewrite bool_decide_eq_false_2 by done.
  unfold bind at 1, emit at 1, try_except, fetch_and_analyze, get_tweets.
  unfold bind at 1. unfold bind at 1, emit at 1.
  destruct (scraper_get_tweets _ _) as [e|tweets_data]; simpl in *.
  - unfold bind, emit, lift. by rewrite <- !app_assoc.
  - rewrite (has_tweets_false _ Hfail).
    unfold bind, emit, ret. by rewrite <- !app_assoc.
Qed.

(** Any non-empty username reaches the scraper, stripped of its leading
    at signs; the fetch branch itself never raises. *)
Lemma fetch_tweets_calls_scraper username num_tweets tr :
  username ≠ [] →
  ∃ rest,
    run_fetch_tweets username num_tweets tr
    = (Ok tt,
       tr ++ [StSpinner (MsgFetching num_tweets (lstrip (py "@") username));
              GetTweets (lstrip (py "@") username) num_tweets]
          ++ rest).
Proof.
  intros Hne.
  destruct (failed_or_empty_dec
              (scraper_get_tweets (lstrip (py "@") username) num_tweets))
    as [Hfail|Hok].
  { eexists. by apply fetch_tweets_failed. }
  unfold fetch_tweets. rewrite bool_decide_eq_false_2 by done.
  unfold bind at 1, emit at 1, try_except, fetch_and_analyze, get_tweets.
  unfold bind at 1. unfold bind at 1, emit at 1.
  destruct (scraper_get_tweets _ _) as [e|tweets_data]; [by destruct Hok|].
  unfold ret.
  destruct (has_tweets tweets_data).
  - destruct (appends_analyze_fetched tweets_data
                (lstrip (py "@") username)
                ((tr ++ [StSpinner (MsgFetching num_tweets
                                      (lstrip (py "@") username))])
                 ++ [GetTweets (lstrip (py "@") username) num_tweets]))
      as [events Hevents].
    destruct (analyze_fetched _ _ _ _ _ _) as [[[]|e] tr1];
      simpl in Hevents; subst tr1.
    + exists events. by rewrite <- !app_assoc.
    + exists (events ++ [StError (MsgFetchFailed e); StInfo MsgFetchFailedHelp]).
      unfold bind, emit. by rewrite <- !app_assoc.
  - eexists. unfold bind, emit. by rewrite <- !app_assoc.
Qed.

(** C7: when a fetch is requested with an empty username, the page shows
    the validation error "Please enter a Twitter username" and ends there:
    [scraper.get_tweets] is not called. *)
Theorem empty_username_rejected (ui : widgets) (tr : list event) :
  selected_option ui = GetTweetsFromUser →
  use_demo ui = false →
  fetch_clicked ui = true →
  username ui = [] →
  ∃ events : list event,
    run_main ui tr = (Ok tt, tr ++ events)
    ∧ events = [StTitle; StMarkdownIntro; StError MsgEnterUsername]
    ∧ ∀ (name : str) (number : Z), GetTweets name number ∉ events.
Proof.
  intros Hopt Hdemo Hfetch Hname.
  exists [StTitle; StMarkdownIntro; StError MsgEnterUsername].
  split_and!.
  - rewrite main_fetch by done. rewrite Hname, fetch_tweets_empty.
    by rewrite <- app_assoc.
  - reflexivity.
  - intros name number Hin. repeat (apply elem_of_cons in Hin as [Hin|Hin];
      [discriminate Hin|]). by apply elem_of_nil in Hin.
Qed.

(** C8: when the fetch raises or comes back with an empty result, the page
    run ends normally; after the spinner and the call of the scraper the
    trace holds the report for the user (an error with its help text, or the
    "No tweets found" warning with the demo tip) and nothing of the batch
    analysis: no prediction, no count, no percentage, no card. *)
Theorem fetch_failure_recovered (ui : widgets) (tr : list event) :
  selected_option ui = GetTweetsFromUser →
  use_demo ui = false →
  fetch_clicked ui = true →
  username ui ≠ [] →
  failed_or_empty
    (scraper_get_tweets (lstrip (py "@") (username ui)) (num_tweets ui)) →
  ∃ report : list event,
    run_main ui tr
    = (Ok tt,
       tr ++ [StTitle; StMarkdownIntro;
              StSpinner (MsgFetching (num_tweets ui)
                           (lstrip (py "@") (username ui)));
              GetTweets (lstrip (py "@") (username ui)) (num_tweets ui)]
          ++ report)
    ∧ report
      = fetch_report (lstrip (py "@") (username ui))
          (scraper_get_tweets (lstrip (py "@") (username ui)) (num_tweets ui))
    ∧ (∃ m, StError m ∈ report ∨ StWarning m ∈ report)
    ∧ Forall (fun e => ¬ analysis_event e) report.
Proof.
  intros Hopt Hdemo Hfetch Hname Hfail. eexists. split_and!.
  - rewrite main_fetch by done. rewrite fetch_tweets_failed by done.
    by rewrite <- !app_assoc.
  - reflexivity.
  - destruct (scraper_get_tweets _ _); simpl; eexists; [left|right]; left.
  - destruct (scraper_get_tweets _ _); simpl; repeat constructor; auto.
Qed.

(** C10: for every non-empty username made of at signs only, the emptiness
    check of line 166 passes (it runs before the at signs are stripped) and
    [scraper.get_tweets] is called with the empty string as the username. *)
Theorem at_sign_username_fetches_empty (ui : widgets) (tr : list event) :
  selected_option ui = GetTweetsFromUser →
  use_demo ui = false →
  fetch_clicked ui = true →
  username ui ≠ [] →
  Forall (fun c => c = 64) (username ui) →
  ∃ rest : list event,
    run_main ui tr
    = (Ok tt,
       tr ++ [StTitle; StMarkdownIntro;
              StSpinner (MsgFetching (num_tweets ui) []);
              GetTweets [] (num_tweets ui)]
          ++ rest).
Proof.
  intros Hopt Hdemo Hfetch Hname Hat.
  rewrite main_fetch by done.
  destruct (fetch_tweets_calls_scraper (username ui) (num_tweets ui)
              (tr ++ [StTitle; StMarkdownIntro]) Hname) as [rest Hrun].
  exists rest. rewrite Hrun.
  rewrite (lstrip_all (py "@") (username ui)).
  - by rewrite <- !app_assoc.
  - eapply Forall_impl; [exact Hat|]. intros c ->. by left.
Qed.

End MainFacts.

Example main_fetch_success :
  main id toy_model [] toy_scraper (fetch_request (py "@bob")) []
  = (Ok tt,
     [StTitle; StMarkdownIntro;
      StSpinner (MsgFetching 10 (py "bob"));
      GetTweets (py "bob") 10;
      StSuccess (MsgFetched 1 (py "bob"));
      VectorizerTransform [py "good day"];
      ModelPredict [8%Z];
      StSubheader HSummary;
      StMetric "Total Tweets" (MetricTotal 1);
      StMetric "Positive" (MetricShare 1 100%float);
      StMetric "Negative" (MetricShare 0 0%float);
      StSubheader HDistribution;
      StBarChart 1 0;
      StSubheader HIndividual;
      StCard 1 Positive (py "Good day")]).
Proof. vm_compute. reflexivity. Qed.

(** The demo run with the slider at 5, for a model that answers by the
    parity of the length of the normalized text. *)
Example main_demo_five :
  (main id (List.map (fun text : str => (Z.of_nat (length text) mod 2)%Z))
     [] toy_scraper
     {| selected_option := GetTweetsFromUser; text_input := [];
        analyze_clicked := false; use_demo := true; username := py "demo_user";
        num_tweets := 5; demo_clicked := true; fetch_clicked := false |}
     []).1 = Ok tt.
Proof. vm_compute. reflexivity. Qed.

Lemma empty_username_rejected_witness :
  selected_option (fetch_request []) = GetTweetsFromUser
  ∧ use_demo (fetch_request []) = false
  ∧ fetch_clicked (fetch_request []) = true
  ∧ username (fetch_request []) = []
  ∧ ∃ events : list event,
      main id toy_model [] toy_scraper (fetch_request []) [] = (Ok tt, [] ++ events)
      ∧ events = [StTitle; StMarkdownIntro; StError MsgEnterUsername]
      ∧ ∀ (name : str) (number : Z), GetTweets name number ∉ events.
Proof.
  repeat (split; [reflexivity|]).
  exact (empty_username_rejected id toy_model [] toy_scraper
           (fetch_request []) [] eq_refl eq_refl eq_refl eq_refl).
Defined.

Lemma fetch_failure_recovered_witness :
  selected_option (fetch_request (py "@")) = GetTweetsFromUser
  ∧ use_demo (fetch_request (py "@")) = false
  ∧ fetch_clicked (fetch_request (py "@")) = true
  ∧ username (fetch_request (py "@")) ≠ []
  ∧ failed_or_empty
      (toy_scraper (lstrip (py "@") (username (fetch_request (py "@"))))
         (num_tweets (fetch_request (py "@"))))
  ∧ ∃ report : list event,
      main id toy_model [] toy_scraper (fetch_request (py "@")) []
      = (Ok tt,
         [] ++ [StTitle; StMarkdownIntro;
                StSpinner
                  (MsgFetching (num_tweets (fetch_request (py "@")))
                     (lstrip (py "@") (username (fetch_request (py "@")))));
                GetTweets (lstrip (py "@") (username (fetch_request (py "@"))))
                  (num_tweets (fetch_request (py "@")))]
            ++ report)
      ∧ report
        = fetch_report (lstrip (py "@") (username (fetch_request (py "@"))))
            (toy_scraper (lstrip (py "@") (username (fetch_request (py "@"))))
               (num_tweets (fetch_request (py "@"))))
      ∧ (∃ m, StError m ∈ report ∨ StWarning m ∈ report)
      ∧ Forall (fun e => ¬ analysis_event e) report.
Proof.
  assert (Hname : username (fetch_request (py "@")) ≠ []) by discriminate.
  assert (Hfail : failed_or_empty
            (toy_scraper (lstrip (py "@") (username (fetch_request (py "@"))))
               (num_tweets (fetch_request (py "@")))))
    by (vm_compute; exact I).
  repeat (split; [reflexivity|]).
  split; [exact Hname|]. split; [exact Hfail|].
  exact (fetch_failure_recovered id toy_model [] toy_scraper
           (fetch_request (py "@")) [] eq_refl eq_refl eq_refl Hname Hfail).
Defined.

Lemma at_sign_username_fetches_empty_witness :
  selected_option (fetch_request (py "@@")) = GetTweetsFromUser
  ∧ use_demo (fetch_request (py "@@")) = false
  ∧ fetch_clicked (fetch_request (py "@@")) = true
  ∧ username (fetch_request (py "@@")) ≠ []
  ∧ Forall (fun c => c = 64) (username (fetch_request (py "@@")))
  ∧ ∃ rest : list event,
      main id toy_model [] toy_scraper (fetch_request (py "@@")) []
      = (Ok tt,
         [] ++ [StTitle; StMarkdownIntro;
                StSpinner
                  (MsgFetching (num_tweets (fetch_request (py "@@"))) []);
                GetTweets [] (num_tweets (fetch_request (py "@@")))]
            ++ rest).
Proof.
  assert (Hname : username (fetch_request (py "@@")) ≠ []) by discriminate.
  assert (Hat : Forall (fun c => c = 64) (username (fetch_request (py "@@"))))
    by (repeat constructor).
  repeat (split; [reflexivity|]).
  split; [exact Hname|]. split; [exact Hat|].
  exact (at_sign_username_fetches_empty id toy_model [] toy_scraper
           (fetch_request (py "@@")) [] eq_refl eq_refl eq_refl Hname Hat).
Defined.

(** * Further properties *)

(** ** The normalizer, beyond the claims *)

Lemma lower_re_sub_alike a b :
  alike a b →
  lower_char (if is_ascii_letter a then a else space)
  = lower_char (if is_ascii_letter b then b else space).
Proof.
  assert (Hup : ∀ c, is_upper c = true →
            is_ascii_letter c = true ∧ is_ascii_letter (c + 32) = true
            ∧ is_upper (c + 32) = false).
  { intros c Hc. unfold is_ascii_letter, is_lower, is_upper in *.
    apply andb_true_iff in Hc as [?%N.leb_le ?%N.leb_le].
    split_and!.
    - apply orb_true_iff. right. apply andb_true_iff.
      split; apply N.leb_le; lia.
    - apply orb_true_iff. left. apply andb_true_iff.
      split; apply N.leb_le; lia.
    - apply andb_false_iff. right. apply N.leb_gt. lia. }
  intros [-> | [[Ha Hb] | [[Ha ->] | [Hb ->]]]].
  - reflexivity.
  - by rewrite Ha, Hb.
  - destruct (Hup a Ha) as (H1 & H2 & H3). rewrite H1, H2.
    unfold lower_char. by rewrite Ha, H3.
  - destruct (Hup b Hb) as (H1 & H2 & H3). rewrite H1, H2.
    unfold lower_char. by rewrite Hb, H3.
Qed.

Lemma preprocess_alike text1 text2 stop_words :
  Forall2 alike text1 text2 →
  preprocess text1 stop_words = preprocess text2 stop_words.
Proof.
  intros H. unfold preprocess.
  replace (lower (re_sub_non_letters text1))
    with (lower (re_sub_non_letters text2)); [done|].
  unfold lower, re_sub_non_letters.
  induction H as [|a b l1 l2 Hab _ IH]; [done|].
  simpl. by rewrite IH, (lower_re_sub_alike a b Hab).
Qed.

Lemma split_scan_blank text :
  Forall (fun c => c = space) text → split_scan text = ([], []).
Proof.
  induction 1 as [|c text -> _ IH]; [done|]. simpl. by rewrite IH.
Qed.

(** A text without any ASCII letter normalizes to the empty string. *)
Lemma preprocess_no_letters text stop_words :
  Forall (fun c => is_ascii_letter c = false) text →
  preprocess text stop_words = [].
Proof.
  intros H. unfold preprocess, split.
  rewrite split_scan_blank; [done|].
  unfold lower, re_sub_non_letters.
  induction H as [|c text Hc _ IH]; [constructor|].
  simpl. constructor; [by rewrite Hc | exact IH].
Qed.

Lemma filter_agree {A} (P Q : A → Prop)
  `{!∀ x, Decision (P x)} `{!∀ x, Decision (Q x)} (l : list A) :
  Forall (fun x => P x ↔ Q x) l → filter P l = filter Q l.
Proof.
  induction 1 as [|x l Hx _ IH]; [done|].
  rewrite !filter_cons, IH.
  destruct (decide (P x)), (decide (Q x)); tauto.
Qed.

(** The tokens of the lowered text are words of lowercase letters. *)
Lemma lowered_tokens text :
  Forall lowercase_token (split (lower (re_sub_non_letters text))).
Proof.
  pose proof (split_words (lower (re_sub_non_letters text))) as Hok.
  pose proof (split_chars lower_or_space _ (re_sub_non_letters_chars text))
    as Hchars.
  apply Forall_forall. intros w Hw.
  rewrite Forall_forall in Hok, Hchars.
  destruct (Hok w Hw) as [Hne Hns]. split; [done|].
  specialize (Hchars w Hw). rewrite Forall_forall in Hns, Hchars.
  apply Forall_forall. intros c Hc.
  destruct (Hchars c Hc) as [Hl | ->]; [done|].
  specialize (Hns _ Hc). by rewrite isspace_space in Hns.
Qed.

Lemma join_weight words :
  words ≠ [] → S (length (join [space] words)) = weight words.
Proof.
  unfold weight. induction words as [|w ws IH]; [done|]. intros _.
  destruct ws as [|w' ws]; [simpl; lia|].
  change (join [space] (w :: w' :: ws))
    with (w ++ space :: join [space] (w' :: ws)).
  specialize (IH ltac:(done)).
  remember (join [space] (w' :: ws)) as rest.
  rewrite length_app, length_cons. cbn [sum_list_with] in *. lia.
Qed.

Lemma weight_filter (P : str → Prop) `{!∀ x, Decision (P x)} words :
  (weight (filter P words) ≤ weight words)%nat.
Proof.
  unfold weight. induction words as [|w ws IH]; [done|].
  rewrite filter_cons. destruct (decide (P w)); simpl; lia.
Qed.

Lemma weight_push_word w ws :
  (weight (push_word w ws) ≤ S (length w + weight ws))%nat.
Proof. unfold weight. destruct w; simpl; lia. Qed.

Lemma split_scan_weight text :
  (length (split_scan text).1 + weight (split_scan text).2 ≤ length text)%nat.
Proof.
  induction text as [|c text IH]; [done|]. simpl.
  destruct (split_scan text) as [w ws]. simpl in IH.
  destruct (isspace c); simpl.
  - pose proof (weight_push_word w ws). lia.
  - lia.
Qed.

Lemma split_weight text : (weight (split text) ≤ S (length text))%nat.
Proof.
  unfold split. pose proof (split_scan_weight text) as H.
  destruct (split_scan text) as [w ws]. simpl in H.
  pose proof (weight_push_word w ws). lia.
Qed.

(** X1: the normalizer never lengthens a text: its output has at most as
    many code points as its input. *)
Theorem preprocess_length (text : str) (stop_words : list str) :
  (length (preprocess text stop_words) ≤ length text)%nat.
Proof.
  unfold preprocess, remove_stop_words.
  set (kept := filter _ _).
  destruct (decide (kept = [])) as [->|Hne]; [simpl; lia|].
  pose proof (join_weight kept Hne) as Hj.
  pose proof (weight_filter (fun w => w ∉ stop_words)
                (split (lower (re_sub_non_letters text)))) as Hf.
  pose proof (split_weight (lower (re_sub_non_letters text))) as Hs.
  assert (Hlen : length (lower (re_sub_non_letters text)) = length text)
    by (unfold lower, re_sub_non_letters; by rewrite !length_map).
  fold kept in Hf. lia.
Qed.

(** X2: only the stopwords that are non-empty words of lowercase ASCII
    letters matter: two stopword lists that hold the same such words give
    the same normalized text, whatever else they hold and in whatever
    order. *)
Theorem preprocess_stop_words_agree (text : str) (stop_words1 stop_words2 : list str) :
  (∀ w, lowercase_token w → w ∈ stop_words1 ↔ w ∈ stop_words2) →
  preprocess text stop_words1 = preprocess text stop_words2.
Proof.
  intros Hagree. unfold preprocess, remove_stop_words. f_equal.
  apply filter_agree.
  eapply Forall_impl; [apply lowered_tokens|].
  intros w Hw. simpl. by rewrite (Hagree w Hw).
Qed.

Lemma preprocess_stop_words_agree_witness :
  (∀ w, lowercase_token w →
        w ∈ [py "don't"; py "the"; py "The"] ↔ w ∈ [py "the"; py "the"])
  ∧ preprocess (py "Don't stop the music") [py "don't"; py "the"; py "The"]
    = preprocess (py "Don't stop the music") [py "the"; py "the"].
Proof.
  assert (H : ∀ w, lowercase_token w →
                w ∈ [py "don't"; py "the"; py "The"]
                ↔ w ∈ [py "the"; py "the"]).
  { intros w [_ Hw]. rewrite !elem_of_cons, !elem_of_nil.
    split; [|tauto].
    intros [-> | [-> | [-> | []]]]; [|tauto|].
    - exfalso. apply Forall_forall with (x := 39) in Hw;
        [discriminate Hw|]. vm_compute. set_solver.
    - exfalso. apply Forall_forall with (x := 84) in Hw;
        [discriminate Hw|]. vm_compute. set_solver. }
  split; [exact H|].
  exact (preprocess_stop_words_agree (py "Don't stop the music")
           [py "don't"; py "the"; py "The"] [py "the"; py "the"] H).
Defined.

(** ** The predictor, beyond the claims *)

Section MorePredictorFacts.

Context {FeatureMatrix : Type}.
Variable vectorizer_transform : list str → FeatureMatrix.
Variable model_predict : FeatureMatrix → list Z.
Variable stop_words : list str.

Local Abbreviation predict :=
  (predict_sentiment vectorizer_transform model_predict stop_words).

Lemma predict_sentiment_preprocess text1 text2 tr :
  preprocess text1 stop_words = preprocess text2 stop_words →
  predict text1 tr = predict text2 tr.
Proof.
  intros H. rewrite !predict_sentiment_run.
  unfold label_of, classes_of. by rewrite H.
Qed.

(** X3: [predict_sentiment] cannot tell two texts apart that differ, place
    by place, only in the case of ASCII letters and in which non-letter
    stands between the words: the two calls log the same collaborator calls
    and have the same outcome. *)
Theorem predict_sentiment_case_and_separators
  (text1 text2 : str) (tr : list event) :
  Forall2 alike text1 text2 →
  predict text1 tr = predict text2 tr.
Proof.
  intros H. apply predict_sentiment_preprocess. by apply preprocess_alike.
Qed.

(** X4: a text without any ASCII letter (digits, punctuation, emoji, any
    other script) is classified exactly as the empty string is. *)
Theorem predict_sentiment_no_letters (text : str) (tr : list event) :
  Forall (fun c => is_ascii_letter c = false) text →
  preprocess text stop_words = []
  ∧ predict text tr = predict [] tr.
Proof.
  intros H. pose proof (preprocess_no_letters text stop_words H) as Hp.
  split; [exact Hp|]. apply predict_sentiment_preprocess. by rewrite Hp.
Qed.

End MorePredictorFacts.

Lemma predict_sentiment_case_and_separators_witness :
  Forall2 alike (py "Good-Day 4u") (py "gOOd day!!U")
  ∧ predict_sentiment id toy_model [py "u"] (py "Good-Day 4u") []
    = predict_sentiment id toy_model [py "u"] (py "gOOd day!!U") [].
Proof.
  assert (H : Forall2 alike (py "Good-Day 4u") (py "gOOd day!!U")).
  { vm_compute.
    repeat (constructor;
      [ first [ left; reflexivity
              | right; left; split; reflexivity
              | right; right; left; split; reflexivity
              | right; right; right; split; reflexivity ] | ]).
    constructor. }
  split; [exact H|].
  exact (predict_sentiment_case_and_separators id toy_model [py "u"]
           (py "Good-Day 4u") (py "gOOd day!!U") [] H).
Defined.

Lemma predict_sentiment_no_letters_witness :
  Forall (fun c => is_ascii_letter c = false) [49; 50; 33; 128512; 1046]
  ∧ preprocess [49; 50; 33; 128512; 1046] [py "the"] = []
  ∧ predict_sentiment id toy_model [py "the"] [49; 50; 33; 128512; 1046] []
    = predict_sentiment id toy_model [py "the"] [] [].
Proof.
  assert (H : Forall (fun c => is_ascii_letter c = false)
                [49; 50; 33; 128512; 1046]) by (repeat constructor).
  split; [exact H|].
  exact (predict_sentiment_no_letters id toy_model [py "the"]
           [49; 50; 33; 128512; 1046] [] H).
Defined.

(** ** The page, beyond the claims *)

Lemma emits_ret P {A} (a : A) : emits P (ret a).
Proof. intros tr. exists []. simpl. by rewrite app_nil_r. Qed.

Lemma emits_lift P {A} (r : res A) : emits P (lift r).
Proof. intros tr. exists []. simpl. by rewrite app_nil_r. Qed.

Lemma emits_emit (P : event → Prop) e : P e → emits P (emit e).
Proof. intros He tr. exists [e]. split; [done|]. by constructor. Qed.

Lemma emits_bind P {A B} (m : M A) (k : A → M B) :
  emits P m → (∀ a, emits P (k a)) → emits P (bind m k).
Proof.
  intros Hm Hk tr. unfold bind.
  destruct (Hm tr) as (events1 & H1 & HP1).
  destruct (m tr) as [[a|e] tr1]; simpl in *; subst tr1.
  - destruct (Hk a (tr ++ events1)) as (events2 & H2 & HP2).
    exists (events1 ++ events2). rewrite H2, app_assoc.
    split; [done|]. by apply Forall_app.
  - by exists events1.
Qed.

Lemma emits_try_except P {A} (body : M A) (handler : exn → M A) :
  emits P body → (∀ e, emits P (handler e)) →
  emits P (try_except body handler).
Proof.
  intros Hm Hk tr. unfold try_except.
  destruct (Hm tr) as (events1 & H1 & HP1).
  destruct (body tr) as [[a|e] tr1]; simpl in *; subst tr1.
  - by exists events1.
  - destruct (Hk e (tr ++ events1)) as (events2 & H2 & HP2).
    exists (events1 ++ events2). rewrite H2, app_assoc.
    split; [done|]. by apply Forall_app.
Qed.

Ltac emits_steps :=
  repeat lazymatch goal with
  | |- emits _ (bind _ _) => apply emits_bind; [|intros ?]
  | |- emits _ (try_except _ _) => apply emits_try_except; [|intros ?]
  | |- emits _ (ret _) => apply emits_ret
  | |- emits _ (lift _) => apply emits_lift
  | |- emits _ (emit _) => apply emits_emit; reflexivity
  end.

(** Everything but a call of the scraper. *)
Local Abbreviation quiet := (fun e : event => is_scraper_call e = false).

Lemma scraper_calls_quiet events : Forall quiet events → scraper_calls events = 0%nat.
Proof.
  unfold scraper_calls. induction 1 as [|e l He _ IH]; [done|].
  simpl. by rewrite He.
Qed.

Lemma scraper_calls_app events1 events2 :
  scraper_calls (events1 ++ events2)
  = (scraper_calls events1 + scraper_calls events2)%nat.
Proof. unfold scraper_calls. by rewrite List.filter_app, length_app. Qed.

Lemma quiet_display_summary s : emits quiet (display_summary s).
Proof. unfold display_summary. emits_steps. Qed.

Lemma quiet_demo_cards idx pairs : emits quiet (demo_cards idx pairs).
Proof.
  revert idx. induction pairs as [|[tweet_text sentiment] rest IH];
    intros idx; simpl; [apply emits_ret|].
  emits_steps. apply IH.
Qed.

Lemma quiet_fetch_cards idx pairs : emits quiet (fetch_cards idx pairs).
Proof.
  revert idx. induction pairs as [|[tweet sentiment] rest IH];
    intros idx; simpl; [apply emits_ret|].
  emits_steps. apply IH.
Qed.

Lemma display_summary_run s tr :
  display_summary s tr = (Ok tt, tr ++ summary_events s).
Proof.
  unfold display_summary, summary_events, bind, emit.
  by rewrite <- !app_assoc.
Qed.

Lemma card_events_cons idx tweet_text sentiment pairs :
  card_events idx ((tweet_text, sentiment) :: pairs)
  = StCard idx sentiment tweet_text :: card_events (idx + 1) pairs.
Proof.
  unfold card_events. rewrite imap_cons. f_equal.
  - f_equal. lia.
  - apply imap_ext. intros i [t s'] _. simpl. f_equal. lia.
Qed.

(** The cards come in the order of the pairs and are numbered from [idx]
    upwards. *)
Lemma demo_cards_run idx pairs tr :
  demo_cards idx pairs tr = (Ok tt, tr ++ card_events idx pairs).
Proof.
  revert idx tr. induction pairs as [|[tweet_text sentiment] rest IH];
    intros idx tr.
  - simpl. unfold ret. by rewrite app_nil_r.
  - simpl. unfold bind at 1, emit. rewrite IH, card_events_cons.
    by rewrite <- app_assoc.
Qed.

Lemma fetch_cards_run idx tweets texts sentiments tr :
  Forall2 (fun (tweet : tweet) text => tweet !! "text"%string = Some text)
    tweets texts →
  fetch_cards idx (zip tweets sentiments) tr
  = (Ok tt, tr ++ card_events idx (zip texts sentiments)).
Proof.
  intros H. revert idx sentiments tr.
  induction H as [|tweet text tweets texts Htext _ IH];
    intros idx sentiments tr.
  - simpl. unfold ret. by rewrite app_nil_r.
  - destruct sentiments as [|sentiment sentiments].
    + simpl. unfold ret. by rewrite app_nil_r.
    + simpl. unfold bind at 1, lift, getitem. rewrite Htext.
      unfold bind at 1, emit. rewrite IH, card_events_cons.
      by rewrite <- app_assoc.
Qed.

Lemma lstrip_spec c text :
  ∃ k : nat,
    text = replicate k c ++ lstrip [c] text
    ∧ head (lstrip [c] text) ≠ Some c.
Proof.
  induction text as [|c0 text (k & Hk & Hhd)].
  - by exists 0%nat.
  - simpl. destruct (decide (c0 ∈ [c])) as [Hin|Hout].
    + rewrite bool_decide_eq_true_2 by done.
      apply list_elem_of_singleton in Hin as ->.
      exists (S k). split; [|done]. simpl. by rewrite <- Hk.
    + rewrite bool_decide_eq_false_2 by done.
      exists 0%nat. split; [done|]. simpl. intros [= ->]. apply Hout. by left.
Qed.

Section MorePageFacts.

Context {FeatureMatrix : Type}.
Variable vectorizer_transform : list str → FeatureMatrix.
Variable model_predict : FeatureMatrix → list Z.
Variable stop_words : list str.
Variable scraper_get_tweets : str → Z → fetch_outcome.

Local Abbreviation run_main :=
  (main vectorizer_transform model_predict stop_words scraper_get_tweets).
Local Abbreviation run_fetch_tweets :=
  (fetch_tweets vectorizer_transform model_predict stop_words
     scraper_get_tweets).
Local Abbreviation predict :=
  (predict_sentiment vectorizer_transform model_predict stop_words).
Local Abbreviation label :=
  (label_of vectorizer_transform model_predict stop_words).
Local Abbreviation predict_events :=
  (predict_events vectorizer_transform model_predict stop_words).
Local Abbreviation contract :=
  (one_class_per_text vectorizer_transform model_predict).

Lemma quiet_predict_sentiment text : emits quiet (predict text).
Proof. unfold predict_sentiment. emits_steps. Qed.

Lemma quiet_demo_loop texts sentiments :
  emits quiet (demo_loop vectorizer_transform model_predict stop_words
                 texts sentiments).
Proof.
  revert sentiments. induction texts as [|text rest IH];
    intros sentiments; simpl; [apply emits_ret|].
  emits_steps; [apply quiet_predict_sentiment | apply IH].
Qed.

Lemma quiet_fetch_loop tweets sentiments :
  emits quiet (fetch_loop vectorizer_transform model_predict stop_words
                 tweets sentiments).
Proof.
  revert sentiments. induction tweets as [|tweet rest IH];
    intros sentiments; simpl; [apply emits_ret|].
  emits_steps; [apply quiet_predict_sentiment | apply IH].
Qed.

Lemma quiet_analyze_demo_tweets num_tweets :
  emits quiet (analyze_demo_tweets vectorizer_transform model_predict
                 stop_words num_tweets).
Proof.
  unfold analyze_demo_tweets. emits_steps.
  - apply quiet_demo_loop.
  - apply quiet_display_summary.
  - apply quiet_demo_cards.
Qed.

Lemma quiet_analyze_fetched tweets_data username :
  emits quiet (analyze_fetched vectorizer_transform model_predict stop_words
                 tweets_data username).
Proof.
  unfold analyze_fetched. emits_steps.
  - apply quiet_fetch_loop.
  - apply quiet_display_summary.
  - apply quiet_fetch_cards.
Qed.

(** Outside a fetch request the page does not touch the scraper. *)
Lemma quiet_main ui :
  fetch_requested ui = false → emits quiet (run_main ui).
Proof.
  unfold fetch_requested, main. intros Hreq.
  destruct (selected_option ui).
  - emits_steps. destruct (analyze_clicked ui); emits_steps.
    apply quiet_predict_sentiment.
  - emits_steps. destruct (use_demo ui); simpl in Hreq.
    + emits_steps. destruct (demo_clicked ui); emits_steps.
      apply quiet_analyze_demo_tweets.
    + destruct (fetch_clicked ui); simpl in Hreq; emits_steps.
      apply negb_false_iff in Hreq. unfold fetch_tweets. rewrite Hreq.
      emits_steps.
Qed.

(** After the call of the scraper the fetch branch does not call it
    again. *)
Lemma fetch_tweets_one_call username num_tweets tr :
  username ≠ [] →
  ∃ rest,
    run_fetch_tweets username num_tweets tr
    = (Ok tt,
       tr ++ [StSpinner (MsgFetching num_tweets (lstrip (py "@") username));
              GetTweets (lstrip (py "@") username) num_tweets]
          ++ rest)
    ∧ Forall quiet rest.
Proof.
  intros Hne. unfold fetch_tweets. rewrite bool_decide_eq_false_2 by done.
  unfold bind at 1, emit at 1, try_except, fetch_and_analyze, get_tweets.
  unfold bind at 1. unfold bind at 1, emit at 1.
  destruct (scraper_get_tweets _ _) as [e|tweets_data].
  - eexists. unfold lift, bind, emit. split.
    + by rewrite <- !app_assoc.
    + by repeat constructor.
  - unfold ret. destruct (has_tweets tweets_data).
    + destruct (quiet_analyze_fetched tweets_data
                  (lstrip (py "@") username)
                  ((tr ++ [StSpinner (MsgFetching num_tweets
                                        (lstrip (py "@") username))])
                   ++ [GetTweets (lstrip (py "@") username) num_tweets]))
        as (events & Hevents & Hquiet).
      destruct (analyze_fetched _ _ _ _ _ _) as [[[]|e] tr1];
        simpl in Hevents; subst tr1.
      * exists events. split; [by rewrite <- !app_assoc|done].
      * exists (events ++ [StError (MsgFetchFailed e);
                           StInfo MsgFetchFailedHelp]).
        unfold bind, emit. split; [by rewrite <- !app_assoc|].
        apply Forall_app. split; [done|]. by repeat constructor.
    + eexists. unfold bind, emit. split; [by rewrite <- !app_assoc|].
      by repeat constructor.
Qed.

(** X5: in one run of the page the scraper is called at most once, and it
    is called exactly when "Fetch Tweets" was clicked outside demo mode
    with a non-empty username; no other mode or button reaches it. *)
Theorem scraper_called_once_on_request (ui : widgets) (tr : list event) :
  ∃ events : list event,
    (run_main ui tr).2 = tr ++ events
    ∧ scraper_calls events = (if fetch_requested ui then 1 else 0)%nat.
Proof.
  destruct (fetch_requested ui) eqn:Hreq.
  - unfold fetch_requested in Hreq.
    destruct (selected_option ui) eqn:Hopt; [done|].
    apply andb_true_iff in Hreq as [Hreq Hname].
    apply andb_true_iff in Hreq as [Hdemo Hclick].
    apply negb_true_iff in Hdemo.
    apply negb_true_iff, bool_decide_eq_false in Hname.
    rewrite (main_fetch vectorizer_transform model_predict stop_words
               scraper_get_tweets ui tr Hopt Hdemo Hclick).
    destruct (fetch_tweets_one_call (username ui) (num_tweets ui)
                (tr ++ [StTitle; StMarkdownIntro]) Hname)
      as (rest & Hrun & Hquiet).
    rewrite Hrun.
    exists ([StTitle; StMarkdownIntro]
            ++ [StSpinner (MsgFetching (num_tweets ui)
                             (lstrip (py "@") (username ui)));
                GetTweets (lstrip (py "@") (username ui)) (num_tweets ui)]
            ++ rest).
    split.
    + simpl. by rewrite <- app_assoc.
    + rewrite !scraper_calls_app, (scraper_calls_quiet rest Hquiet).
      reflexivity.
  - destruct (quiet_main ui Hreq tr) as (events & Hevents & Hquiet).
    exists events. split; [done|]. by apply scraper_calls_quiet.
Qed.

(** X6: in the fetch branch no exception of class [Exception] leaves
    [main]: with "Get tweets from user" chosen outside demo mode, whether
    the scraper returns or raises such an exception and whatever arrays the
    model returns, the run of the page returns normally. Exceptions outside
    [Exception] are not in [exn] and not part of this statement. *)
Theorem fetch_mode_never_raises (ui : widgets) (tr : list event) :
  selected_option ui = GetTweetsFromUser →
  use_demo ui = false →
  (run_main ui tr).1 = Ok tt.
Proof.
  intros Hopt Hdemo. destruct (fetch_clicked ui) eqn:Hclick.
  - rewrite main_fetch by done.
    destruct (decide (username ui = [])) as [->|Hname]; [done|].
    destruct (fetch_tweets_calls_scraper vectorizer_transform model_predict
              stop_words scraper_get_tweets
                (username ui) (num_tweets ui)
                (tr ++ [StTitle; StMarkdownIntro]) Hname) as [rest ->].
    reflexivity.
  - unfold main, bind, emit. by rewrite Hopt, Hdemo, Hclick.
Qed.

(** X7: in "Input text" mode with "Analyze" clicked the page makes one
    prediction for the typed text; it writes one line with the label when
    the predictor returns, and when the predictor raises it writes nothing
    and the exception leaves [main]: this mode has no handler. *)
Theorem input_text_outcome (ui : widgets) (tr : list event) :
  selected_option ui = InputText →
  analyze_clicked ui = true →
  run_main ui tr
  = match label (text_input ui) with
    | Ok sentiment =>
        (Ok tt,
         tr ++ [StTitle; StMarkdownIntro] ++ predict_events (text_input ui)
            ++ [StWrite (MsgSentiment sentiment)])
    | Raise e =>
        (Raise e,
         tr ++ [StTitle; StMarkdownIntro] ++ predict_events (text_input ui))
    end.
Proof.
  intros Hopt Hclick. unfold main. rewrite Hopt, Hclick.
  unfold bind at 1 2, emit at 1 2. unfold bind.
  rewrite predict_sentiment_run.
  destruct (label (text_input ui)); unfold emit;
    by rewrite <- !app_assoc.
Qed.

(** X8: the username that reaches the scraper is the typed one without its
    leading at signs: it does not start with an at sign, and at signs
    further inside are kept. *)
Theorem scraper_username_stripped (ui : widgets) (tr : list event) :
  selected_option ui = GetTweetsFromUser →
  use_demo ui = false →
  fetch_clicked ui = true →
  username ui ≠ [] →
  ∃ (k : nat) (name : str) (rest : list event),
    username ui = replicate k 64 ++ name
    ∧ head name ≠ Some 64
    ∧ run_main ui tr
      = (Ok tt,
         tr ++ [StTitle; StMarkdownIntro;
                StSpinner (MsgFetching (num_tweets ui) name);
                GetTweets name (num_tweets ui)]
            ++ rest).
Proof.
  intros Hopt Hdemo Hclick Hname.
  destruct (lstrip_spec 64 (username ui)) as (k & Hk & Hhd).
  destruct (fetch_tweets_calls_scraper vectorizer_transform model_predict
              stop_words scraper_get_tweets
              (username ui) (num_tweets ui)
              (tr ++ [StTitle; StMarkdownIntro]) Hname) as [rest Hrun].
  exists k, (lstrip (py "@") (username ui)), rest. split_and!.
  - exact Hk.
  - exact Hhd.
  - rewrite main_fetch by done. rewrite Hrun. by rewrite <- !app_assoc.
Qed.

End MorePageFacts.

(** ** A whole analysis *)

Section AnalysisFacts.

Context {FeatureMatrix : Type}.
Variable vectorizer_transform : list str → FeatureMatrix.
Variable model_predict : FeatureMatrix → list Z.
Variable stop_words : list str.
Variable scraper_get_tweets : str → Z → fetch_outcome.

Local Abbreviation run_main :=
  (main vectorizer_transform model_predict stop_words scraper_get_tweets).
Local Abbreviation label :=
  (label_of vectorizer_transform model_predict stop_words).
Local Abbreviation predict_events :=
  (predict_events vectorizer_transform model_predict stop_words).
Local Abbreviation contract :=
  (one_class_per_text vectorizer_transform model_predict).
Local Abbreviation analysis_events :=
  (analysis_events vectorizer_transform model_predict stop_words).

Lemma statistics_of_labels texts sentiments :
  texts ≠ [] →
  Forall2 (fun text sentiment => label text = Ok sentiment) texts sentiments →
  ∃ stats,
    sentiment_statistics sentiments = Ok stats
    ∧ total_count stats = len texts
    ∧ (positive_count stats + negative_count stats = len texts)%Z.
Proof.
  intros Hne Hlabels.
  assert (Hlen : length texts = length sentiments)
    by (eapply Forall2_length; exact Hlabels).
  assert (Hne' : sentiments ≠ [])
    by (intros ->; destruct texts; done).
  eexists. split; [by apply sentiment_statistics_nonempty|]. simpl.
  unfold len. rewrite Hlen. split; [done|].
  apply count_labels, Forall_forall. intros s Hs.
  apply list_elem_of_lookup in Hs as [i Hi].
  destruct (Forall2_lookup_r _ _ _ _ _ Hlabels Hi) as (text & _ & Hl).
  by eapply label_is_label.
Qed.

Lemma analyze_demo_tweets_run num_tweets tr :
  contract →
  slice_to demo_tweets num_tweets ≠ [] →
  ∃ sentiments stats,
    Forall2 (fun text sentiment => label text = Ok sentiment)
      (slice_to demo_tweets num_tweets) sentiments
    ∧ sentiment_statistics sentiments = Ok stats
    ∧ total_count stats = len (slice_to demo_tweets num_tweets)
    ∧ (positive_count stats + negative_count stats
       = len (slice_to demo_tweets num_tweets))%Z
    ∧ analyze_demo_tweets vectorizer_transform model_predict stop_words
        num_tweets tr
      = (Ok tt,
         tr ++ [StSpinner
                  (MsgAnalyzingDemo (len (slice_to demo_tweets num_tweets)))]
            ++ analysis_events (slice_to demo_tweets num_tweets)
                 sentiments stats).
Proof.
  intros Hcontract Hne. unfold analyze_demo_tweets.
  set (selected := slice_to demo_tweets num_tweets) in *.
  unfold bind at 1, emit at 1.
  destruct (demo_loop_run vectorizer_transform model_predict stop_words
              selected [] (tr ++ [StSpinner (MsgAnalyzingDemo (len selected))])
              Hcontract) as (sentiments & Hrun & Hlabels).
  destruct (statistics_of_labels selected sentiments Hne Hlabels)
    as (stats & Hstats & Htotal & Hsum).
  exists sentiments, stats. split_and!; try done.
  unfold bind at 1. rewrite Hrun. simpl app.
  unfold bind at 1, lift. rewrite Hstats.
  unfold bind at 1. rewrite display_summary_run.
  unfold bind at 1, emit. rewrite demo_cards_run.
  unfold analysis_events. by rewrite <- !app_assoc.
Qed.

(** X9: a demo run with the slider at n (5 to 20) and artifacts that keep
    their call contract returns normally and shows, in this order: the demo
    notice, the spinner for n tweets, the predictions for the first n sample
    tweets, a summary whose total is n and whose two counts add up to n, and
    n cards numbered 1 to n, card i carrying sample tweet i and its
    label. *)
Theorem demo_run (ui : widgets) (tr : list event) :
  selected_option ui = GetTweetsFromUser →
  use_demo ui = true →
  demo_clicked ui = true →
  (5 ≤ num_tweets ui ≤ 20)%Z →
  contract →
  ∃ (sentiments : list str) (stats : statistics),
    slice_to demo_tweets (num_tweets ui)
      = take (Z.to_nat (num_tweets ui)) demo_tweets
    ∧ length sentiments = Z.to_nat (num_tweets ui)
    ∧ Forall2 (fun text sentiment => label text = Ok sentiment)
        (slice_to demo_tweets (num_tweets ui)) sentiments
    ∧ sentiment_statistics sentiments = Ok stats
    ∧ total_count stats = num_tweets ui
    ∧ (positive_count stats + negative_count stats = num_tweets ui)%Z
    ∧ run_main ui tr
      = (Ok tt,
         tr ++ [StTitle; StMarkdownIntro; StInfo MsgDemoEnabled;
                StSpinner (MsgAnalyzingDemo (num_tweets ui))]
            ++ analysis_events (slice_to demo_tweets (num_tweets ui))
                 sentiments stats).
Proof.
  intros Hopt Hdemo Hclick Hn Hcontract.
  pose proof (demo_slice_length (num_tweets ui) Hn) as Hlen.
  assert (Hne : slice_to demo_tweets (num_tweets ui) ≠ []).
  { intros Hnil. rewrite Hnil in Hlen. unfold len in Hlen. simpl in Hlen. lia. }
  destruct (analyze_demo_tweets_run (num_tweets ui)
              (tr ++ [StTitle; StMarkdownIntro; StInfo MsgDemoEnabled])
              Hcontract Hne)
    as (sentiments & stats & Hlabels & Hstats & Htotal & Hsum & Hrun).
  exists sentiments, stats. rewrite Hlen in *. split_and!; try done.
  - unfold slice_to. destruct (Z.leb_spec 0 (num_tweets ui)); [done|lia].
  - apply Forall2_length in Hlabels. unfold len in Hlen. lia.
  - unfold main, bind, emit. rewrite Hopt, Hdemo, Hclick.
    rewrite <- !app_assoc. simpl app.
    rewrite Hrun. by rewrite <- !app_assoc.
Qed.

Lemma has_tweets_some (d : gmap string (list tweet)) tweets :
  d !! "tweets"%string = Some tweets → tweets ≠ [] →
  has_tweets (Some d) = true.
Proof.
  intros Hd Hne. simpl. rewrite Hd. apply andb_true_iff. split.
  - apply negb_true_iff, bool_decide_eq_false. intros ->.
    by rewrite lookup_empty in Hd.
  - unfold len. destruct tweets; [done|]. apply Z.ltb_lt. simpl. lia.
Qed.

Lemma main_fetched ui tr d tweets :
  selected_option ui = GetTweetsFromUser →
  use_demo ui = false →
  fetch_clicked ui = true →
  username ui ≠ [] →
  scraper_get_tweets (lstrip (py "@") (username ui)) (num_tweets ui)
    = FetchReturns (Some d) →
  d !! "tweets"%string = Some tweets →
  tweets ≠ [] →
  run_main ui tr
  = try_except
      (sentiments <- fetch_loop vectorizer_transform model_predict
                       stop_words tweets [] ;;
       stats <- lift (sentiment_statistics sentiments) ;;
       display_summary stats ;;;
       emit (StSubheader HIndividual) ;;;
       fetch_cards 1 (zip tweets sentiments))
      (fun e =>
         emit (StError (MsgFetchFailed e)) ;;;
         emit (StInfo MsgFetchFailedHelp))
      (tr ++ [StTitle; StMarkdownIntro;
              StSpinner (MsgFetching (num_tweets ui)
                           (lstrip (py "@") (username ui)));
              GetTweets (lstrip (py "@") (username ui)) (num_tweets ui);
              StSuccess (MsgFetched (len tweets)
                           (lstrip (py "@") (username ui)))]).
Proof.
  intros Hopt Hdemo Hclick Hname Hfetch Hd Hne.
  rewrite main_fetch by done. unfold fetch_tweets.
  rewrite bool_decide_eq_false_2 by done.
  unfold bind at 1, emit at 1, try_except, fetch_and_analyze, get_tweets.
  unfold bind at 1. unfold bind at 1, emit at 1. rewrite Hfetch.
  unfold ret. rewrite (has_tweets_some d tweets Hd Hne).
  unfold analyze_fetched. unfold bind at 1, lift at 1, tweets_of, getitem.
  rewrite Hd. unfold bind at 1, emit at 1.
  by rewrite <- !app_assoc.
Qed.

(** X10: a fetch that returns a non-empty list of tweets, each with a text,
    to artifacts that keep their call contract, ends normally and shows, in
    this order: the spinner, the success line with the number of tweets, the
    predictions in the order of the tweets, a summary whose total is that
    number and whose two counts add up to it, and one card per tweet,
    numbered from 1, card i carrying the text of tweet i and its label. *)
Theorem fetch_run
  (ui : widgets) (tr : list event) (d : gmap string (list tweet))
  (tweets : list tweet) (texts : list str) :
  selected_option ui = GetTweetsFromUser →
  use_demo ui = false →
  fetch_clicked ui = true →
  username ui ≠ [] →
  contract →
  scraper_get_tweets (lstrip (py "@") (username ui)) (num_tweets ui)
    = FetchReturns (Some d) →
  d !! "tweets"%string = Some tweets →
  tweets ≠ [] →
  Forall2 (fun (tweet : tweet) text => tweet !! "text"%string = Some text)
    tweets texts →
  ∃ (sentiments : list str) (stats : statistics),
    Forall2 (fun text sentiment => label text = Ok sentiment) texts sentiments
    ∧ sentiment_statistics sentiments = Ok stats
    ∧ total_count stats = len tweets
    ∧ (positive_count stats + negative_count stats = len tweets)%Z
    ∧ run_main ui tr
      = (Ok tt,
         tr ++ [StTitle; StMarkdownIntro;
                StSpinner (MsgFetching (num_tweets ui)
                             (lstrip (py "@") (username ui)));
                GetTweets (lstrip (py "@") (username ui)) (num_tweets ui);
                StSuccess (MsgFetched (len tweets)
                             (lstrip (py "@") (username ui)))]
            ++ analysis_events texts sentiments stats).
Proof.
  intros Hopt Hdemo Hclick Hname Hcontract Hfetch Hd Hne Htexts.
  rewrite (main_fetched ui tr d tweets) by done.
  set (tr1 := tr ++ _).
  assert (Hlen : length tweets = length texts)
    by (eapply Forall2_length; exact Htexts).
  assert (Hne' : texts ≠ []) by (intros ->; destruct tweets; done).
  destruct (demo_loop_run vectorizer_transform model_predict stop_words
              texts [] tr1 Hcontract) as (sentiments & Hrun & Hlabels).
  destruct (statistics_of_labels texts sentiments Hne' Hlabels)
    as (stats & Hstats & Htotal & Hsum).
  exists sentiments, stats.
  assert (Hlen' : len tweets = len texts) by (unfold len; by rewrite Hlen).
  split_and!; [done|done|by rewrite Hlen'|by rewrite Hlen'|].
  unfold try_except, bind at 1.
  rewrite (fetch_loop_run vectorizer_transform model_predict stop_words
             tweets texts [] tr1 Hcontract Htexts), Hrun.
  simpl app. unfold bind at 1, lift. rewrite Hstats.
  unfold bind at 1. rewrite display_summary_run.
  unfold bind at 1, emit. rewrite (fetch_cards_run 1 tweets texts) by done.
  subst tr1. unfold analysis_events. by rewrite <- !app_assoc.
Qed.

(** The fetch loop stops at the first tweet without a ['text'] entry. *)
Lemma fetch_loop_missing_text good texts bad rest sentiments tr :
  contract →
  Forall2 (fun (tweet : tweet) text => tweet !! "text"%string = Some text)
    good texts →
  bad !! "text"%string = None →
  fetch_loop vectorizer_transform model_predict stop_words
    (good ++ bad :: rest) sentiments tr
  = (Raise (KeyError "text"), tr ++ concat (predict_events <$> texts)).
Proof.
  intros Hcontract Hgood Hbad. revert sentiments tr.
  induction Hgood as [|tweet text good texts Htext _ IH];
    intros sentiments tr.
  - simpl. unfold bind, lift, getitem. rewrite Hbad. by rewrite app_nil_r.
  - simpl. unfold bind at 1, lift, getitem. rewrite Htext.
    unfold bind at 1. rewrite predict_sentiment_run.
    destruct (label_total vectorizer_transform model_predict stop_words
                text Hcontract) as [sentiment ->].
    rewrite IH. by rewrite <- !app_assoc.
Qed.

(** X11: when a fetched tweet has no ['text'] entry, the [KeyError] is caught
    by the handler of the fetch: the run ends normally, the tweets before
    that one have been sent to the model, and what the user sees after the
    success line is the "error occurred while fetching tweets" message for
    that [KeyError] with its help text; no summary and no card is shown. *)
Theorem fetch_missing_text
  (ui : widgets) (tr : list event) (d : gmap string (list tweet))
  (good rest : list tweet) (bad : tweet) (texts : list str) :
  selected_option ui = GetTweetsFromUser →
  use_demo ui = false →
  fetch_clicked ui = true →
  username ui ≠ [] →
  contract →
  scraper_get_tweets (lstrip (py "@") (username ui)) (num_tweets ui)
    = FetchReturns (Some d) →
  d !! "tweets"%string = Some (good ++ bad :: rest) →
  Forall2 (fun (tweet : tweet) text => tweet !! "text"%string = Some text)
    good texts →
  bad !! "text"%string = None →
  run_main ui tr
  = (Ok tt,
     tr ++ [StTitle; StMarkdownIntro;
            StSpinner (MsgFetching (num_tweets ui)
                         (lstrip (py "@") (username ui)));
            GetTweets (lstrip (py "@") (username ui)) (num_tweets ui);
            StSuccess (MsgFetched (len (good ++ bad :: rest))
                         (lstrip (py "@") (username ui)))]
        ++ concat (predict_events <$> texts)
        ++ [StError (MsgFetchFailed (KeyError "text"));
            StInfo MsgFetchFailedHelp]).
Proof.
  intros Hopt Hdemo Hclick Hname Hcontract Hfetch Hd Hgood Hbad.
  rewrite (main_fetched ui tr d (good ++ bad :: rest)) by
    (try done; by destruct good).
  unfold try_except, bind at 1.
  rewrite (fetch_loop_missing_text good texts bad rest) by done.
  unfold bind, emit. by rewrite <- !app_assoc.
Qed.

End AnalysisFacts.

Lemma fetch_mode_never_raises_witness :
  selected_option (fetch_request (py "@bob")) = GetTweetsFromUser
  ∧ use_demo (fetch_request (py "@bob")) = false
  ∧ (main id toy_model [] toy_scraper_no_text (fetch_request (py "@bob")) []).1
    = Ok tt.
Proof.
  repeat (split; [reflexivity|]).
  exact (fetch_mode_never_raises id toy_model [] toy_scraper_no_text
           (fetch_request (py "@bob")) [] eq_refl eq_refl).
Defined.

Lemma input_text_outcome_witness :
  selected_option (input_request (py "So good!")) = InputText
  ∧ analyze_clicked (input_request (py "So good!")) = true
  ∧ main id toy_model [py "so"] toy_scraper (input_request (py "So good!")) []
    = match label_of id toy_model [py "so"]
              (text_input (input_request (py "So good!"))) with
      | Ok sentiment =>
          (Ok tt,
           [] ++ [StTitle; StMarkdownIntro]
              ++ predict_events id toy_model [py "so"]
                   (text_input (input_request (py "So good!")))
              ++ [StWrite (MsgSentiment sentiment)])
      | Raise e =>
          (Raise e,
           [] ++ [StTitle; StMarkdownIntro]
              ++ predict_events id toy_model [py "so"]
                   (text_input (input_request (py "So good!"))))
      end.
Proof.
  repeat (split; [reflexivity|]).
  exact (input_text_outcome id toy_model [py "so"] toy_scraper
           (input_request (py "So good!")) [] eq_refl eq_refl).
Defined.

Lemma scraper_username_stripped_witness :
  selected_option (fetch_request (py "@@b@b")) = GetTweetsFromUser
  ∧ use_demo (fetch_request (py "@@b@b")) = false
  ∧ fetch_clicked (fetch_request (py "@@b@b")) = true
  ∧ username (fetch_request (py "@@b@b")) ≠ []
  ∧ ∃ (k : nat) (name : str) (rest : list event),
      username (fetch_request (py "@@b@b")) = replicate k 64 ++ name
      ∧ head name ≠ Some 64
      ∧ main id toy_model [] toy_scraper (fetch_request (py "@@b@b")) []
        = (Ok tt,
           [] ++ [StTitle; StMarkdownIntro;
                  StSpinner
                    (MsgFetching (num_tweets (fetch_request (py "@@b@b")))
                       name);
                  GetTweets name (num_tweets (fetch_request (py "@@b@b")))]
              ++ rest).
Proof.
  assert (Hname : username (fetch_request (py "@@b@b")) ≠ []) by discriminate.
  repeat (split; [reflexivity|]). split; [exact Hname|].
  exact (scraper_username_stripped id toy_model [] toy_scraper
           (fetch_request (py "@@b@b")) [] eq_refl eq_refl eq_refl Hname).
Defined.

Lemma demo_run_witness :
  selected_option (demo_request 5) = GetTweetsFromUser
  ∧ use_demo (demo_request 5) = true
  ∧ demo_clicked (demo_request 5) = true
  ∧ (5 ≤ num_tweets (demo_request 5) ≤ 20)%Z
  ∧ one_class_per_text id toy_model
  ∧ ∃ (sentiments : list str) (stats : statistics),
      slice_to demo_tweets (num_tweets (demo_request 5))
        = take (Z.to_nat (num_tweets (demo_request 5))) demo_tweets
      ∧ length sentiments = Z.to_nat (num_tweets (demo_request 5))
      ∧ Forall2 (fun text sentiment =>
                   label_of id toy_model [] text = Ok sentiment)
          (slice_to demo_tweets (num_tweets (demo_request 5))) sentiments
      ∧ sentiment_statistics sentiments = Ok stats
      ∧ total_count stats = num_tweets (demo_request 5)
      ∧ (positive_count stats + negative_count stats
         = num_tweets (demo_request 5))%Z
      ∧ main id toy_model [] toy_scraper (demo_request 5) []
        = (Ok tt,
           [] ++ [StTitle; StMarkdownIntro; StInfo MsgDemoEnabled;
                  StSpinner (MsgAnalyzingDemo (num_tweets (demo_request 5)))]
              ++ analysis_events id toy_model []
                   (slice_to demo_tweets (num_tweets (demo_request 5)))
                   sentiments stats).
Proof.
  assert (Hn : (5 ≤ num_tweets (demo_request 5) ≤ 20)%Z) by (simpl; lia).
  assert (Hc : one_class_per_text id toy_model) by (intros text; reflexivity).
  repeat (split; [reflexivity|]). split; [exact Hn|]. split; [exact Hc|].
  exact (demo_run id toy_model [] toy_scraper (demo_request 5) []
           eq_refl eq_refl eq_refl Hn Hc).
Defined.

Lemma fetch_run_witness :
  selected_option (fetch_request (py "@bob")) = GetTweetsFromUser
  ∧ use_demo (fetch_request (py "@bob")) = false
  ∧ fetch_clicked (fetch_request (py "@bob")) = true
  ∧ username (fetch_request (py "@bob")) ≠ []
  ∧ one_class_per_text id toy_model
  ∧ toy_scraper (lstrip (py "@") (username (fetch_request (py "@bob"))))
      (num_tweets (fetch_request (py "@bob")))
    = FetchReturns (Some toy_tweets_data)
  ∧ toy_tweets_data !! "tweets"%string = Some [toy_tweet]
  ∧ [toy_tweet] ≠ []
  ∧ Forall2 (fun (tweet : tweet) text => tweet !! "text"%string = Some text)
      [toy_tweet] [py "Good day"]
  ∧ ∃ (sentiments : list str) (stats : statistics),
      Forall2 (fun text sentiment =>
                 label_of id toy_model [] text = Ok sentiment)
        [py "Good day"] sentiments
      ∧ sentiment_statistics sentiments = Ok stats
      ∧ total_count stats = len [toy_tweet]
      ∧ (positive_count stats + negative_count stats = len [toy_tweet])%Z
      ∧ main id toy_model [] toy_scraper (fetch_request (py "@bob")) []
        = (Ok tt,
           [] ++ [StTitle; StMarkdownIntro;
                  StSpinner
                    (MsgFetching (num_tweets (fetch_request (py "@bob")))
                       (lstrip (py "@")
                          (username (fetch_request (py "@bob")))));
                  GetTweets
                    (lstrip (py "@") (username (fetch_request (py "@bob"))))
                    (num_tweets (fetch_request (py "@bob")));
                  StSuccess
                    (MsgFetched (len [toy_tweet])
                       (lstrip (py "@")
                          (username (fetch_request (py "@bob")))))]
              ++ analysis_events id toy_model [] [py "Good day"]
                   sentiments stats).
Proof.
  assert (Hname : username (fetch_request (py "@bob")) ≠ []) by discriminate.
  assert (Hc : one_class_per_text id toy_model) by (intros text; reflexivity).
  assert (Hne : [toy_tweet] ≠ []) by discriminate.
  assert (Htexts : Forall2
            (fun (tweet : tweet) text => tweet !! "text"%string = Some text)
            [toy_tweet] [py "Good day"]) by (repeat constructor).
  repeat (split; [reflexivity|]). split; [exact Hname|].
  split; [exact Hc|]. repeat (split; [reflexivity|]).
  split; [exact Hne|]. split; [exact Htexts|].
  exact (fetch_run id toy_model [] toy_scraper (fetch_request (py "@bob")) []
           toy_tweets_data [toy_tweet] [py "Good day"]
           eq_refl eq_refl eq_refl Hname Hc eq_refl eq_refl Hne Htexts).
Defined.

Lemma fetch_missing_text_witness :
  selected_option (fetch_request (py "bob")) = GetTweetsFromUser
  ∧ use_demo (fetch_request (py "bob")) = false
  ∧ fetch_clicked (fetch_request (py "bob")) = true
  ∧ username (fetch_request (py "bob")) ≠ []
  ∧ one_class_per_text id toy_model
  ∧ toy_scraper_no_text
      (lstrip (py "@") (username (fetch_request (py "bob"))))
      (num_tweets (fetch_request (py "bob")))
    = FetchReturns (Some toy_tweets_data_no_text)
  ∧ toy_tweets_data_no_text !! "tweets"%string
    = Some ([toy_tweet] ++ toy_tweet_no_text :: [])
  ∧ Forall2 (fun (tweet : tweet) text => tweet !! "text"%string = Some text)
      [toy_tweet] [py "Good day"]
  ∧ toy_tweet_no_text !! "text"%string = None
  ∧ main id toy_model [] toy_scraper_no_text (fetch_request (py "bob")) []
    = (Ok tt,
       [] ++ [StTitle; StMarkdownIntro;
              StSpinner
                (MsgFetching (num_tweets (fetch_request (py "bob")))
                   (lstrip (py "@") (username (fetch_request (py "bob")))));
              GetTweets
                (lstrip (py "@") (username (fetch_request (py "bob"))))
                (num_tweets (fetch_request (py "bob")));
              StSuccess
                (MsgFetched (len ([toy_tweet] ++ toy_tweet_no_text :: []))
                   (lstrip (py "@") (username (fetch_request (py "bob")))))]
          ++ concat (predict_events id toy_model [] <$> [py "Good day"])
          ++ [StError (MsgFetchFailed (KeyError "text"));
              StInfo MsgFetchFailedHelp]).
Proof.
  assert (Hname : username (fetch_request (py "bob")) ≠ []) by discriminate.
  assert (Hc : one_class_per_text id toy_model) by (intros text; reflexivity).
  assert (Htexts : Forall2
            (fun (tweet : tweet) text => tweet !! "text"%string = Some text)
            [toy_tweet] [py "Good day"]) by (repeat constructor).
  repeat (split; [reflexivity|]). split; [exact Hname|].
  split; [exact Hc|]. repeat (split; [reflexivity|]).
  split; [exact Htexts|]. split; [reflexivity|].
  exact (fetch_missing_text id toy_model [] toy_scraper_no_text
           (fetch_request (py "bob")) [] toy_tweets_data_no_text
           [toy_tweet] [] toy_tweet_no_text [py "Good day"]
           eq_refl eq_refl eq_refl Hname Hc eq_refl eq_refl Htexts eq_refl).
Defined.

(** ** The coloured card *)

Example create_card_positive :
  create_card (py "Nice") Positive
  = newline
    ++ py "    <div style=" ++ double_quote
    ++ py "background-color: green; padding: 10px; border-radius: 5px; margin: 10px 0;"
    ++ double_quote ++ py ">" ++ newline
    ++ py "        <h5 style=" ++ double_quote ++ py "color: white;"
    ++ double_quote ++ py ">Positive Sentiment</h5>" ++ newline
    ++ py "        <p style=" ++ double_quote ++ py "color: white;"
    ++ double_quote ++ py ">Nice</p>" ++ newline
    ++ py "    </div>" ++ newline ++ py "    ".
Proof. vm_compute. reflexivity. Qed.

(** X12: the card of [create_card] has a green background exactly when the
    sentiment is the string "Positive"; for every other string, "Negative"
    or not, it is red. *)
Theorem create_card_colour (tweet_text sentiment : str) :
  ((∃ rest, create_card tweet_text sentiment
            = card_open ++ py "green" ++ rest)
   ↔ sentiment = Positive)
  ∧ ((∃ rest, create_card tweet_text sentiment
              = card_open ++ py "red" ++ rest)
     ↔ sentiment ≠ Positive).
Proof.
  unfold create_card, card_open.
  destruct (decide (sentiment = Positive)) as [Heq|Hne].
  - rewrite bool_decide_eq_true_2 by done. split; split.
    + done.
    + intros _. eexists. rewrite <- !app_assoc. reflexivity.
    + intros [rest H]. rewrite <- !app_assoc in H.
      do 4 apply List.app_inv_head in H. discriminate H.
    + done.
  - rewrite bool_decide_eq_false_2 by done. split; split.
    + intros [rest H]. rewrite <- !app_assoc in H.
      do 4 apply List.app_inv_head in H. discriminate H.
    + done.
    + done.
    + intros _. eexists. rewrite <- !app_assoc. reflexivity.
Qed.

(** X13: [create_card] inserts the tweet text into the card unchanged:
    the card is a head that depends on the sentiment only, then the text as
    it is, then the closing lines; so for a given sentiment two different
    texts never give the same card. *)
Theorem create_card_text_verbatim (text1 text2 sentiment : str) :
  text1 ≠ text2 →
  (∃ head : str,
     create_card [] sentiment = head ++ card_close
     ∧ create_card text1 sentiment = head ++ text1 ++ card_close
     ∧ create_card text2 sentiment = head ++ text2 ++ card_close)
  ∧ create_card text1 sentiment ≠ create_card text2 sentiment.
Proof.
  intros Hne. split.
  - unfold create_card, card_close.
    exists (newline
            ++ py "    <div style=" ++ double_quote
            ++ py "background-color: "
            ++ (if bool_decide (sentiment = Positive)
                then py "green" else py "red")
            ++ py "; padding: 10px; border-radius: 5px; margin: 10px 0;"
            ++ double_quote ++ py ">" ++ newline
            ++ py "        <h5 style=" ++ double_quote ++ py "color: white;"
            ++ double_quote ++ py ">" ++ sentiment
            ++ py " Sentiment</h5>" ++ newline
            ++ py "        <p style=" ++ double_quote ++ py "color: white;"
            ++ double_quote ++ py ">").
    split_and!; rewrite <- ?app_assoc; reflexivity.
  - unfold create_card. intros H. apply Hne.
    repeat (apply List.app_inv_head in H).
    by apply List.app_inv_tail in H.
Qed.

Lemma create_card_text_verbatim_witness :
  py "<b>Nice</b>" ≠ py "Nice"
  ∧ (∃ head : str,
       create_card [] Negative = head ++ card_close
       ∧ create_card (py "<b>Nice</b>") Negative
         = head ++ py "<b>Nice</b>" ++ card_close
       ∧ create_card (py "Nice") Negative = head ++ py "Nice" ++ card_close)
  ∧ create_card (py "<b>Nice</b>") Negative ≠ create_card (py "Nice") Negative.
Proof.
  assert (H : py "<b>Nice</b>" ≠ py "Nice") by discriminate.
  split; [exact H|].
  exact (create_card_text_verbatim (py "<b>Nice</b>") (py "Nice") Negative H).
Defined.

(** ** The statistics block inside the page *)

Example statistics_29_of_100 :
  positive_percentage
  <$> match sentiment_statistics
              (replicate 29 Positive ++ replicate 71 Negative) with
      | Ok s => Some s
      | Raise _ => None
      end
  = Some 0x1.cffffffffffffp+4%float.
Proof. vm_compute. reflexivity. Qed.

Section GuardFacts.

Context {FeatureMatrix : Type}.
Variable vectorizer_transform : list str → FeatureMatrix.
Variable model_predict : FeatureMatrix → list Z.
Variable stop_words : list str.
Variable scraper_get_tweets : str → Z → fetch_outcome.

Local Abbreviation run_main :=
  (main vectorizer_transform model_predict stop_words scraper_get_tweets).
Local Abbreviation label :=
  (label_of vectorizer_transform model_predict stop_words).
Local Abbreviation run_demo_loop :=
  (demo_loop vectorizer_transform model_predict stop_words).
Local Abbreviation run_fetch_loop :=
  (fetch_loop vectorizer_transform model_predict stop_words).

(** Line 37 can only fail on the truth value of the array. *)
Lemma label_raises text e : label text = Raise e → e = ValueError.
Proof.
  unfold label_of.
  destruct (ndarray_eq _ _) as [|b [|b' l]]; simpl; congruence.
Qed.

Lemma demo_loop_raises texts sentiments tr e tr' :
  run_demo_loop texts sentiments tr = (Raise e, tr') → e = ValueError.
Proof.
  revert sentiments tr.
  induction texts as [|text rest IH]; intros sentiments tr; simpl.
  - unfold ret. congruence.
  - unfold bind. rewrite predict_sentiment_run.
    destruct (label text) as [sentiment|e0] eqn:Hl.
    + apply IH.
    + intros [= <- _]. by eapply label_raises.
Qed.

Lemma fetch_loop_raises tweets sentiments tr e tr' :
  run_fetch_loop tweets sentiments tr = (Raise e, tr') →
  e = ValueError ∨ e = KeyError "text".
Proof.
  revert sentiments tr.
  induction tweets as [|tweet rest IH]; intros sentiments tr; simpl.
  - unfold ret. congruence.
  - unfold bind, lift, getitem.
    destruct (tweet !! "text"%string) as [text|].
    + rewrite predict_sentiment_run.
      destruct (label text) as [sentiment|e0] eqn:Hl.
      * apply IH.
      * intros [= <- _]. left. by eapply label_raises.
    + intros [= <- _]. by right.
Qed.

(** A fetch loop that returns has read a text from every tweet. *)
Lemma fetch_loop_texts tweets sentiments tr result tr' :
  run_fetch_loop tweets sentiments tr = (Ok result, tr') →
  ∃ texts,
    Forall2 (fun (tweet : tweet) text => tweet !! "text"%string = Some text)
      tweets texts.
Proof.
  revert sentiments tr.
  induction tweets as [|tweet rest IH]; intros sentiments tr; simpl.
  - intros _. by exists [].
  - unfold bind, lift, getitem.
    destruct (tweet !! "text"%string) as [text|] eqn:Htext; [|done].
    rewrite predict_sentiment_run.
    destruct (label text) as [sentiment|e0]; [|done].
    intros [texts Htexts]%IH. exists (text :: texts). by constructor.
Qed.

Lemma has_tweets_inv tweets_data :
  has_tweets tweets_data = true →
  ∃ d tweets,
    tweets_data = Some d ∧ d !! "tweets"%string = Some tweets ∧ tweets ≠ [].
Proof.
  destruct tweets_data as [d|]; [|done]. simpl.
  intros [_ H]%andb_true_iff.
  destruct (d !! "tweets"%string) as [tweets|] eqn:Hd; [|done].
  exists d, tweets. split_and!; [done|done|].
  intros ->. discriminate H.
Qed.

Lemma statistics_of_nonempty sentiments :
  sentiments ≠ [] →
  ∃ stats,
    sentiment_statistics sentiments = Ok stats
    ∧ total_count stats = len sentiments.
Proof.
  intros Hne. eexists. split; [by apply sentiment_statistics_nonempty|done].
Qed.

(** The demo branch hands the block the labels of its loop, one per
    selected text. *)
Lemma main_demo_statistics ui tr :
  selected_option ui = GetTweetsFromUser →
  use_demo ui = true →
  demo_clicked ui = true →
  (5 ≤ num_tweets ui ≤ 20)%Z →
  match run_demo_loop (slice_to demo_tweets (num_tweets ui)) []
          (tr ++ [StTitle; StMarkdownIntro; StInfo MsgDemoEnabled;
                  StSpinner (MsgAnalyzingDemo (num_tweets ui))]) with
  | (Raise e, tr') =>
      e ≠ ZeroDivisionError ∧ run_main ui tr = (Raise e, tr')
  | (Ok sentiments, tr') =>
      sentiments ≠ []
      ∧ ∃ stats : statistics,
          sentiment_statistics sentiments = Ok stats
          ∧ total_count stats = num_tweets ui
          ∧ run_main ui tr
            = (Ok tt,
               tr' ++ summary_events stats ++ [StSubheader HIndividual]
                   ++ card_events 1
                        (zip (slice_to demo_tweets (num_tweets ui))
                           sentiments))
  end.
Proof.
  intros Hopt Hdemo Hclick Hn.
  pose proof (demo_slice_length (num_tweets ui) Hn) as Hlen.
  assert (Hmain : run_main ui tr
            = (sentiments <- run_demo_loop
                               (slice_to demo_tweets (num_tweets ui)) [] ;;
               stats <- lift (sentiment_statistics sentiments) ;;
               display_summary stats ;;;
               emit (StSubheader HIndividual) ;;;
               demo_cards 1
                 (zip (slice_to demo_tweets (num_tweets ui)) sentiments))
                (tr ++ [StTitle; StMarkdownIntro; StInfo MsgDemoEnabled;
                        StSpinner (MsgAnalyzingDemo (num_tweets ui))])).
  { unfold main. rewrite Hopt, Hdemo, Hclick. unfold analyze_demo_tweets.
    rewrite Hlen. unfold bind at 1 2 3 4, emit at 1 2 3 4.
    by rewrite <- !app_assoc. }
  rewrite Hmain. clear Hmain.
  destruct (run_demo_loop _ _ _) as [[sentiments|e] tr'] eqn:Hloop.
  - pose proof (demo_loop_length _ _ _ _ _ _ _ _ Hloop) as Hlength.
    simpl in Hlength.
    assert (Hne : sentiments ≠ []).
    { intros ->. unfold len in Hlen. simpl in Hlength. lia. }
    split; [exact Hne|].
    destruct (statistics_of_nonempty sentiments Hne)
      as (stats & Hstats & Htotal).
    exists stats. split_and!; [done| |].
    + rewrite Htotal. unfold len in *. by rewrite Hlength.
    + unfold bind at 1. rewrite Hloop.
      unfold bind at 1, lift. rewrite Hstats.
      unfold bind at 1. rewrite display_summary_run.
      unfold bind at 1, emit. rewrite demo_cards_run.
      by rewrite <- !app_assoc.
  - unfold bind at 1. rewrite Hloop.
    apply demo_loop_raises in Hloop as ->. done.
Qed.

(** The fetch branch hands the block the labels of its loop, one per
    fetched tweet, and only when the guard of line 177 let tweets
    through. *)
Lemma main_fetch_statistics ui tr tweets_data :
  selected_option ui = GetTweetsFromUser →
  use_demo ui = false →
  fetch_clicked ui = true →
  username ui ≠ [] →
  scraper_get_tweets (lstrip (py "@") (username ui)) (num_tweets ui)
    = FetchReturns tweets_data →
  has_tweets tweets_data = true →
  ∃ tweets : list tweet,
    tweets_of tweets_data = Ok tweets
    ∧ tweets ≠ []
    ∧ match run_fetch_loop tweets []
              (tr ++ [StTitle; StMarkdownIntro;
                      StSpinner (MsgFetching (num_tweets ui)
                                   (lstrip (py "@") (username ui)));
                      GetTweets (lstrip (py "@") (username ui))
                        (num_tweets ui);
                      StSuccess (MsgFetched (len tweets)
                                   (lstrip (py "@") (username ui)))]) with
      | (Raise e, tr') =>
          e ≠ ZeroDivisionError
          ∧ run_main ui tr
            = (Ok tt,
               tr' ++ [StError (MsgFetchFailed e); StInfo MsgFetchFailedHelp])
      | (Ok sentiments, tr') =>
          sentiments ≠ []
          ∧ ∃ (stats : statistics) (texts : list str),
              sentiment_statistics sentiments = Ok stats
              ∧ total_count stats = len tweets
              ∧ Forall2 (fun (tweet : tweet) text =>
                           tweet !! "text"%string = Some text) tweets texts
              ∧ run_main ui tr
                = (Ok tt,
                   tr' ++ summary_events stats ++ [StSubheader HIndividual]
                       ++ card_events 1 (zip texts sentiments))
      end.
Proof.
  intros Hopt Hdemo Hclick Hname Hfetch Hhas.
  destruct (has_tweets_inv tweets_data Hhas) as (d & tweets & -> & Hd & Hne).
  exists tweets. split_and!; [by simpl; unfold getitem; rewrite Hd|done|].
  rewrite (main_fetched vectorizer_transform model_predict stop_words
             scraper_get_tweets ui tr d tweets) by done.
  destruct (run_fetch_loop _ _ _) as [[sentiments|e] tr'] eqn:Hloop.
  - destruct (fetch_loop_texts _ _ _ _ _ Hloop) as [texts Htexts].
    pose proof (fetch_loop_length _ _ _ _ _ _ _ _ Hloop) as Hlength.
    simpl in Hlength.
    assert (Hne' : sentiments ≠ []).
    { intros ->. destruct tweets; [done|]. simpl in Hlength. lia. }
    split; [exact Hne'|].
    destruct (statistics_of_nonempty sentiments Hne')
      as (stats & Hstats & Htotal).
    exists stats, texts. split_and!; [done| |done|].
    + rewrite Htotal. unfold len. by rewrite Hlength.
    + unfold try_except, bind at 1. rewrite Hloop.
      unfold bind at 1, lift. rewrite Hstats.
      unfold bind at 1. rewrite display_summary_run.
      unfold bind at 1, emit.
      rewrite (fetch_cards_run 1 tweets texts) by done.
      by rewrite <- !app_assoc.
  - split.
    + apply fetch_loop_raises in Hloop as [-> | ->]; done.
    + unfold try_except, bind at 1. rewrite Hloop.
      unfold bind, emit. by rewrite <- !app_assoc.
Qed.

(** C4, amended: the statistics block defines no percentages for the
    empty sequence and is kept away from it. The counts of the empty
    sequence are all 0. On every non-empty sequence the block returns
    total_count = n > 0 and, without dividing by zero, the percentages
    float(count) / float(total_count) * 100 in binary64 arithmetic. In a run
    of the page the block is reached only with a non-empty sequence: in demo
    mode (slider 5 to 20) it is given the labels the loop returned, one per
    selected text, and the run shows their summary; in the fetch branch it
    is reached only when the guard of line 177 let a non-empty list of
    tweets through, is given the labels the loop returned, one per tweet,
    and the run shows their summary; on an empty result the branch shows the
    "No tweets found" warning and computes no statistics. When a loop raises
    instead, what it raises is not a [ZeroDivisionError]. *)
Theorem statistics_guarded_against_empty :
  sentiment_counts [] = (0, 0, 0)%Z
  ∧ (∀ sentiments : list str,
       sentiments ≠ [] →
       ∃ s : statistics,
         sentiment_statistics sentiments = Ok s
         ∧ total_count s = len sentiments
         ∧ (0 < total_count s)%Z
         ∧ positive_percentage s
           = (float_of_Z (count Positive sentiments)
              / float_of_Z (total_count s) * 100)%float
         ∧ negative_percentage s
           = (float_of_Z (count Negative sentiments)
              / float_of_Z (total_count s) * 100)%float)
  ∧ (∀ tweets_data : tweets_dict,
       has_tweets tweets_data = true →
       ∃ tweets, tweets_of tweets_data = Ok tweets ∧ tweets ≠ [])
  ∧ (∀ (username : str) (num_tweets : Z) (tr : list event)
       (tweets_data : tweets_dict),
       scraper_get_tweets username num_tweets = FetchReturns tweets_data →
       no_tweets tweets_data →
       fetch_and_analyze vectorizer_transform model_predict stop_words
         scraper_get_tweets username num_tweets tr
       = (Ok tt,
          tr ++ [GetTweets username num_tweets;
                 StWarning (MsgNoTweets username); StInfo MsgDemoTip]))
  ∧ (∀ n : Z, (5 ≤ n ≤ 20)%Z → len (slice_to demo_tweets n) = n)
  ∧ (∀ (tweets : list tweet) (texts sentiments : list str)
       (tr tr' : list event),
       (run_fetch_loop tweets [] tr = (Ok sentiments, tr') →
        length sentiments = length tweets)
       ∧ (run_demo_loop texts [] tr = (Ok sentiments, tr') →
          length sentiments = length texts))
  ∧ (∀ (ui : widgets) (tr : list event),
       selected_option ui = GetTweetsFromUser →
       use_demo ui = true →
       demo_clicked ui = true →
       (5 ≤ num_tweets ui ≤ 20)%Z →
       match run_demo_loop (slice_to demo_tweets (num_tweets ui)) []
               (tr ++ [StTitle; StMarkdownIntro; StInfo MsgDemoEnabled;
                       StSpinner (MsgAnalyzingDemo (num_tweets ui))]) with
       | (Raise e, tr') =>
           e ≠ ZeroDivisionError ∧ run_main ui tr = (Raise e, tr')
       | (Ok sentiments, tr') =>
           sentiments ≠ []
           ∧ ∃ stats : statistics,
               sentiment_statistics sentiments = Ok stats
               ∧ total_count stats = num_tweets ui
               ∧ run_main ui tr
                 = (Ok tt,
                    tr' ++ summary_events stats ++ [StSubheader HIndividual]
                        ++ card_events 1
                             (zip (slice_to demo_tweets (num_tweets ui))
                                sentiments))
       end)
  ∧ (∀ (ui : widgets) (tr : list event) (tweets_data : tweets_dict),
       selected_option ui = GetTweetsFromUser →
       use_demo ui = false →
       fetch_clicked ui = true →
       username ui ≠ [] →
       scraper_get_tweets (lstrip (py "@") (username ui)) (num_tweets ui)
         = FetchReturns tweets_data →
       has_tweets tweets_data = true →
       ∃ tweets : list tweet,
         tweets_of tweets_data = Ok tweets
         ∧ tweets ≠ []
         ∧ match run_fetch_loop tweets []
                   (tr ++ [StTitle; StMarkdownIntro;
                           StSpinner (MsgFetching (num_tweets ui)
                                        (lstrip (py "@") (username ui)));
                           GetTweets (lstrip (py "@") (username ui))
                             (num_tweets ui);
                           StSuccess (MsgFetched (len tweets)
                                        (lstrip (py "@") (username ui)))])
           with
           | (Raise e, tr') =>
               e ≠ ZeroDivisionError
               ∧ run_main ui tr
                 = (Ok tt,
                    tr' ++ [StError (MsgFetchFailed e);
                            StInfo MsgFetchFailedHelp])
           | (Ok sentiments, tr') =>
               sentiments ≠ []
               ∧ ∃ (stats : statistics) (texts : list str),
                   sentiment_statistics sentiments = Ok stats
                   ∧ total_count stats = len tweets
                   ∧ Forall2 (fun (tweet : tweet) text =>
                                tweet !! "text"%string = Some text)
                       tweets texts
                   ∧ run_main ui tr
                     = (Ok tt,
                        tr' ++ summary_events stats
                            ++ [StSubheader HIndividual]
                            ++ card_events 1 (zip texts sentiments))
           end).
Proof.
  split_and!.
  - reflexivity.
  - intros sentiments Hne. eexists.
    split; [by apply sentiment_statistics_nonempty|]. simpl.
    split_and!; try reflexivity.
    unfold len. destruct sentiments; [done|]. simpl. lia.
  - apply has_tweets_true.
  - intros username num_tweets tr tweets_data Hfetch Hnone.
    unfold fetch_and_analyze, get_tweets, bind, emit, ret.
    rewrite Hfetch, (has_tweets_false _ Hnone).
    by rewrite <- !app_assoc.
  - apply demo_slice_length.
  - intros tweets texts sentiments tr tr'. split; intros Hrun.
    + by apply fetch_loop_length in Hrun.
    + by apply demo_loop_length in Hrun.
  - apply main_demo_statistics.
  - apply main_fetch_statistics.
Qed.

End GuardFacts.
